(** * ci/get_hdf5.py: download, unpack and build HDF5 for the CI pipeline

    A shallow embedding of the script.  String-level helpers are plain
    functions; everything that touches the operating system runs in a
    state-and-exception monad over an abstract operating system, and leaves
    a log of what the script asked of it.  A library call that can fail on a
    real host (creating a directory, unpacking the archive, changing
    directory, starting a process) fails when the operating system says
    so. *)

From Stdlib Require Import String Ascii List ZArith Bool Lia.
From stdpp Require Import base option gmap strings.
Import ListNotations.
Local Open Scope string_scope.
Local Open Scope Z_scope.

(** ** Python string primitives *)

Module Py.

(** [s.split(sep)] for a one-character separator. *)
Fixpoint split (sep : ascii) (s : string) : list string :=
  match s with
  | EmptyString => [EmptyString]
  | String c rest =>
      if Ascii.eqb c sep then EmptyString :: split sep rest
      else match split sep rest with
           | field :: fields => String c field :: fields
           | [] => [String c EmptyString]
           end
  end.

(** [s.startswith(p)]. *)
Fixpoint startswith (s p : string) {struct p} : bool :=
  match p, s with
  | EmptyString, _ => true
  | String a p', String b s' => Ascii.eqb a b && startswith s' p'
  | String _ _, EmptyString => false
  end.

(** [s.endswith(p)]. *)
Fixpoint endswith (s p : string) : bool :=
  String.eqb s p ||
  match s with
  | EmptyString => false
  | String _ rest => endswith rest p
  end.

(** [sep.join(words)] on a list of str. *)
Fixpoint join (sep : string) (words : list string) : string :=
  match words with
  | [] => ""
  | [w] => w
  | w :: ws => w +:+ sep +:+ join sep ws
  end.

(** [str(x)] for a value that is a str or None. *)
Definition str (x : option string) : string :=
  match x with Some s => s | None => "None" end.

(** A list whose items may be None holds only str exactly when this
    returns its items. *)
Fixpoint all_str (items : list (option string)) : option (list string) :=
  match items with
  | [] => Some []
  | Some s :: rest => option_map (cons s) (all_str rest)
  | None :: _ => None
  end.

End Py.

(** ** Module-level constants *)

Definition is_win (platform : string) : bool := Py.startswith platform "win".

Definition HDF5_18_URL (version : string) : string :=
  "https://www.hdfgroup.org/ftp/HDF5/releases/hdf5-1.8/hdf5-" +:+ version +:+ "/src/".
Definition HDF5_110_URL (version : string) : string :=
  "https://www.hdfgroup.org/ftp/HDF5/releases/hdf5-1.10/hdf5-" +:+ version +:+ "/src/".

Definition HDF5_18_FILE (platform version : string) : string :=
  if is_win platform
  then HDF5_18_URL version +:+ "hdf5-" +:+ version +:+ ".zip"
  else HDF5_18_URL version +:+ "hdf5-" +:+ version +:+ ".gzip".
Definition HDF5_110_FILE (platform version : string) : string :=
  if is_win platform
  then HDF5_110_URL version +:+ "hdf5-" +:+ version +:+ ".zip"
  else HDF5_110_URL version +:+ "hdf5-" +:+ version +:+ ".tar.gz".

Definition CMAKE_CONFIGURE_CMD : list string :=
  ["cmake"; "-DBUILD_SHARED_LIBS:BOOL=ON"; "-DCMAKE_BUILD_TYPE:STRING=RELEASE";
   "-DHDF5_BUILD_CPP_LIB=OFF"; "-DHDF5_BUILD_HL_LIB=ON";
   "-DHDF5_BUILD_TOOLS:BOOL=ON"].
Definition CMAKE_BUILD_CMD : list string := ["cmake"; "--build"].
Definition CMAKE_INSTALL_ARG : list string :=
  ["--target"; "install"; "--config"; "Release"].
Definition CMAKE_INSTALL_PATH_ARG (install_path : string) : string :=
  "-DCMAKE_INSTALL_PREFIX=" +:+ install_path.
Definition CMAKE_HDF5_LIBRARY_PREFIX : list string :=
  ["-DHDF5_EXTERNAL_LIB_PREFIX=h5py_"].
Definition REL_PATH_TO_UNPACKED_DIR (version : string) : string :=
  "hdf5-" +:+ version.
Definition DEFAULT_VERSION : string := "1.8.17".
Definition VSVERSION_TO_GENERATOR : gmap string string :=
  <["9" := "Visual Studio 9 2008"]>
  (<["10" := "Visual Studio 10 2010"]>
  (<["14" := "Visual Studio 14 2015"]>
  (<["9-64" := "Visual Studio 9 2008 Win64"]>
  (<["10-64" := "Visual Studio 10 2010 Win64"]>
  (<["14-64" := "Visual Studio 14 2015 Win64"]> ∅))))).

(** The URL [download_hdf5] asks for. *)
Definition download_url (platform version : string) : string :=
  if decide (take 2 (Py.split "." version) = ["1"; "10"])
  then HDF5_110_FILE platform version
  else HDF5_18_FILE platform version.

(** ** Exceptions and results *)

(** [LibraryError name] is an exception raised inside a library call that
    failed, by the name of its class: FileNotFoundError, BadGzipFile, ... *)
Inductive exn :=
| TypeError
| KeyError (key : string)
| RuntimeError (msg : string)
| CalledProcessError (returncode : Z)
| HTTPError (status : Z)
| SystemExit (code : Z)
| LibraryError (name : string).

Inductive result (A : Type) :=
| Returned (a : A)
| Raised (e : exn).
Arguments Returned {A} a.
Arguments Raised {A} e.

(** Exit status of the interpreter: 0 when [main] returns, the code given to
    [exit], and 1 after an exception nobody caught. *)
Definition exit_status {A} (r : result A) : Z :=
  match r with
  | Returned _ => 0
  | Raised (SystemExit code) => code
  | Raised _ => 1
  end.

(** ** The operating system, as the script sees it *)

(** First argument of [subprocess.run]: a list of words or one str. *)
Inductive cmdline :=
| Argv (words : list string)
| CmdStr (line : string).

(** One call of [subprocess.run]: [dir] is where the child starts (the [cwd]
    keyword, else the working directory of the script), [piped] says whether
    its output is captured ([stdout=PIPE, stderr=STDOUT]). *)
Record invocation := Invocation {
  args : cmdline;
  shell : bool;
  dir : string;
  piped : bool
}.

Definition tree := list (string * list string * list string).

(** What the script does to, or learns from, the world outside it.  An
    event records a call: [Makedirs], [Chdir] and the two extractions are
    logged whether the call returned or raised; a call of [subprocess.run]
    is logged as [Run] with the return code when the process ran, and as
    [NotStarted] with the error when it could not be started. *)
Inductive event :=
| PathExists (path : string) (found : bool)    (* os.path.exists *)
| Makedirs (path : string)
| TempFileOpen                                 (* with TemporaryFile() *)
| TempFileClose
| TempDirCreate (path : string)                (* with TemporaryDirectory() *)
| TempDirCleanup (path : string)
| HttpGet (url : string) (status : Z)          (* requests.get: r.status_code *)
| CopyBody                                     (* copyfileobj(r.raw, outfile) *)
| Seek0                                        (* f.seek(0) *)
| ExtractZip (dest : string)                   (* ZipFile(f).extractall *)
| ExtractGzipTar (dest : string)               (* TarFile(GzipFile(f)).extractall *)
| Chdir (path : string)
| Run (i : invocation) (returncode : Z)        (* subprocess.run *)
| NotStarted (i : invocation) (error : string) (* subprocess.run raised *)
| Glob (pattern : string) (hits : list string)
| Copy (src dst : string)                      (* shutil.copy *)
| Walk (top : string) (found : tree)           (* os.walk *)
| Stderr (line : string)                       (* print(..., file=stderr) *)
| Stdout (line : string).                      (* print(...) *)

(** The behaviour of everything outside the script.  [Ext] is the state of
    the outside world (files, network, processes); the script only reaches
    it through the library calls below.  [Path s] is the text of
    [pathlib.Path(s)]; [http_status] is the status code of the final answer
    to a request; [after] is the outside world once the script has done
    something to it.

    The four [_error] fields say whether a call raises, and which exception:
    [os.makedirs] and [os.chdir] on a path, the extraction of the downloaded
    archive into a directory, and [subprocess.run] when the process cannot be
    started.  The other calls are taken to return: [print], the creation and
    removal of the temporary file and directories, [os.getcwd], the request
    itself (an answer arrives), [copyfileobj], [seek], [glob], [copy] and
    [os.walk], which skips what it cannot read. *)
Record OS := {
  Ext : Type;
  platform : string;                                  (* sys.platform *)
  path_join : string -> list string -> string;        (* os.path.join on str *)
  Path : string -> string;                            (* str(pathlib.Path(s)) *)
  path_exists : string -> Ext -> bool;
  glob : string -> Ext -> list string;
  walk : string -> Ext -> tree;
  temp_dir : Ext -> string;
  http_status : string -> Ext -> Z;
  returncode : invocation -> Ext -> Z;
  output : invocation -> Ext -> string;
  makedirs_error : string -> Ext -> option string;
  extract_error : string -> Ext -> option string;
  chdir_error : string -> Ext -> option string;
  spawn_error : invocation -> Ext -> option string;
  after : event -> Ext -> Ext
}.

(** A positional argument of a call: given at the call site or not. *)
Inductive positional (A : Type) :=
| Given (a : A)
| Missing.
Arguments Given {A} a.
Arguments Missing {A}.

Section Script.

Context (os : OS).

(** [cwd] names the working directory of the process by the path it was
    entered with: what [os.getcwd] returns when the script starts, then the
    path of the last [os.chdir] that returned. *)
Record state := State {
  ext : Ext os;
  cwd : string;
  log : list event
}.

(** ** The monad: state and exceptions *)

Definition M (A : Type) : Type := state -> result A * state.

Definition ret {A} (a : A) : M A := fun st => (Returned a, st).

Definition bind {A B} (m : M A) (k : A -> M B) : M B :=
  fun st =>
    match m st with
    | (Returned a, st') => k a st'
    | (Raised e, st') => (Raised e, st')
    end.

Definition raise {A} (e : exn) : M A := fun st => (Raised e, st).

Notation "x <- m ;; k" := (bind m (fun x => k))
  (at level 100, m at next level, right associativity).
Notation "m ;;; k" := (bind m (fun _ => k))
  (at level 100, right associativity).

(** Run [body], then [cleanup] whether [body] returned or raised, as the
    exit of a [with] block does. *)
Definition finally {A} (body : M A) (cleanup : M unit) : M A :=
  fun st =>
    match body st with
    | (r, st') =>
        match cleanup st' with
        | (Returned _, st'') => (r, st'')
        | (Raised e, st'') => (Raised e, st'')
        end
    end.

(** [try: body except ...:], where [handler] gives the except clause that
    matches an exception, if there is one. *)
Definition try_except {A} (body : M A) (handler : exn -> option (M A)) : M A :=
  fun st =>
    match body st with
    | (Returned a, st') => (Returned a, st')
    | (Raised e, st') =>
        match handler e with
        | Some clause => clause st'
        | None => (Raised e, st')
        end
    end.

Fixpoint for_each {A} (items : list A) (body : A -> M unit) : M unit :=
  match items with
  | [] => ret tt
  | x :: rest => body x ;;; for_each rest body
  end.

(** ** Library calls *)

Definition ask {A} (q : Ext os -> A) : M A := fun st => (Returned (q (ext st)), st).

Definition emit (e : event) : M unit :=
  fun st => (Returned tt,
             {| ext := after os e (ext st); cwd := cwd st; log := (log st ++ [e])%list |}).

(** Looking at the outside world is logged but leaves it as it is. *)
Definition observe (e : event) : M unit :=
  fun st => (Returned tt,
             {| ext := ext st; cwd := cwd st; log := (log st ++ [e])%list |}).

Definition print_stderr (line : string) : M unit := emit (Stderr line).
Definition print (line : string) : M unit := emit (Stdout line).

Definition getcwd : M string := fun st => (Returned (cwd st), st).

(** A call that raises when the operating system says so. *)
Definition fallible (error : Ext os -> option string) (e : event) : M unit :=
  failed <- ask error ;;
  emit e ;;;
  match failed with
  | Some name => raise (LibraryError name)
  | None => ret tt
  end.

(** [os.chdir]: the working directory changes only when the call returns. *)
Definition chdir (path : string) : M unit :=
  fun st =>
    match chdir_error os path (ext st) with
    | Some name =>
        (Raised (LibraryError name),
         {| ext := after os (Chdir path) (ext st); cwd := cwd st;
            log := (log st ++ [Chdir path])%list |})
    | None =>
        (Returned tt,
         {| ext := after os (Chdir path) (ext st); cwd := path;
            log := (log st ++ [Chdir path])%list |})
    end.

(** [os.path.join(a, *rest)]: TypeError when [a] is None. *)
Definition pjoin (a : option string) (rest : list string) : M string :=
  match a with
  | Some a => ret (path_join os a rest)
  | None => raise TypeError
  end.

Definition exists_ (path : string) : M bool :=
  found <- ask (path_exists os path) ;;
  observe (PathExists path found) ;;;
  ret found.

Definition makedirs (path : string) : M unit :=
  fallible (makedirs_error os path) (Makedirs path).

(** [ZipFile(f).extractall(dest)] and [TarFile(GzipFile(f)).extractall(dest)]
    on the temporary file of the run. *)
Definition extract_zip (dest : string) : M unit :=
  fallible (extract_error os dest) (ExtractZip dest).
Definition extract_gzip_tar (dest : string) : M unit :=
  fallible (extract_error os dest) (ExtractGzipTar dest).

Definition with_TemporaryFile {A} (body : M A) : M A :=
  emit TempFileOpen ;;;
  finally body (emit TempFileClose).

Definition with_TemporaryDirectory {A} (body : string -> M A) : M A :=
  d <- ask (temp_dir os) ;;
  emit (TempDirCreate d) ;;;
  finally (body d) (emit (TempDirCleanup d)).

(** [subprocess.run]: an exception when the process cannot be started, else
    the completed process, as its return code and what [p.stdout] prints as
    (None when nothing was captured). *)
Definition run (a : cmdline) (sh : bool) (cwd_kw : option string) (pipe : bool)
  : M (Z * string) :=
  here <- getcwd ;;
  let i := Invocation a sh (default here cwd_kw) pipe in
  failed <- ask (spawn_error os i) ;;
  match failed with
  | Some name => emit (NotStarted i name) ;;; raise (LibraryError name)
  | None =>
      rc <- ask (returncode os i) ;;
      out <- ask (output os i) ;;
      emit (Run i rc) ;;;
      ret (rc, if pipe then out else "None")
  end.

(** [p.check_returncode()]. *)
Definition check_returncode (p : Z * string) : M unit :=
  if fst p =? 0 then ret tt else raise (CalledProcessError (fst p)).

(** [r.raise_for_status()]: HTTPError for a client or server error status,
    400 to 599. *)
Definition is_error_status (status : Z) : bool :=
  (400 <=? status) && (status <? 600).

Definition raise_for_status (status : Z) : M unit :=
  if is_error_status status then raise (HTTPError status) else ret tt.

(** [' '.join(cmd)]: TypeError unless every item is a str. *)
Definition join_words (cmd : list (option string)) : M (list string) :=
  match Py.all_str cmd with
  | Some words => ret words
  | None => raise TypeError
  end.

(** ** The script

    The file object that [main] opens with [TemporaryFile] and passes to
    [download_hdf5] as [outfile] and to [build_hdf5] as [hdf5_file] is the
    only one of the run; it is left implicit in [CopyBody], [Seek0] and the
    two extraction events. *)

Definition download_hdf5 (version : string) : M unit :=
  let file := download_url (platform os) version in
  print_stderr ("Downloading " +:+ file) ;;;
  status <- ask (http_status os file) ;;
  emit (HttpGet file status) ;;;
  try_except
    (raise_for_status status ;;;
     emit CopyBody)
    (fun e =>
       match e with
       | HTTPError _ =>
           Some (print_stderr ("Failed to download hdf5 version " +:+ version +:+
                               ", exiting") ;;;
                 raise (SystemExit 1))
       | _ => None
       end).

Definition get_autotools_cmds (install_path : option string) (with_mpi : bool)
  : list (option string) * list (list string) :=
  let parallel_args := if with_mpi then [Some "--enable-parallel"] else [] in
  let cfg_cmd :=
    ([Some "./configure"; Some "--prefix"; install_path] ++ parallel_args)%list in
  let build_cmds := [["make"]; ["make"; "install"]] in
  (cfg_cmd, build_cmds).

Definition get_unpacked_path (version : string) (extract_point : string) : string :=
  path_join os extract_point [REL_PATH_TO_UNPACKED_DIR version].

Definition get_cmake_install_path (install_path : option string) : string :=
  match install_path with
  | Some p => CMAKE_INSTALL_PATH_ARG p
  | None => " "
  end.

Definition get_cmake_cmds (version : string) (install_path : option string)
    (cmake_generator : option string) (use_prefix : bool)
    (hdf5_extract_path : string)
  : list (option string) * list (list string) :=
  let generator_args :=
    match cmake_generator with Some g => ["-G"; g] | None => [] end in
  let prefix_args := if use_prefix then CMAKE_HDF5_LIBRARY_PREFIX else [] in
  let cfg_cmd :=
    (CMAKE_CONFIGURE_CMD ++
     [get_cmake_install_path install_path;
      get_unpacked_path version hdf5_extract_path] ++
     generator_args ++ prefix_args)%list in
  let build_cmd := (CMAKE_BUILD_CMD ++ ["."] ++ CMAKE_INSTALL_ARG)%list in
  (map Some cfg_cmd, [build_cmd]).

(** Calling [get_cmake_cmds]: its five parameters have no defaults, so a
    call that leaves one out raises TypeError before the body runs. *)
Definition call_get_cmake_cmds (version : string) (install_path : option string)
    (cmake_generator : option string) (use_prefix : bool)
    (hdf5_extract_path : positional string)
  : M (list (option string) * list (list string)) :=
  match hdf5_extract_path with
  | Given p => ret (get_cmake_cmds version install_path cmake_generator use_prefix p)
  | Missing => raise TypeError
  end.

Definition build_hdf5 (version : string) (install_path : option string)
    (cmake_generator : option string) (use_prefix with_mpi : bool) : M unit :=
  let build_system := if is_win (platform os) then "cmake" else "autotools" in
  with_TemporaryDirectory (fun hdf5_extract_path =>
    (if is_win (platform os)
     then extract_zip hdf5_extract_path
     else extract_gzip_tar hdf5_extract_path) ;;;
    cmds <-
      (if String.eqb build_system "cmake" then
         call_get_cmake_cmds version install_path cmake_generator use_prefix Missing
       else if String.eqb build_system "autotools" then
         ret (get_autotools_cmds install_path with_mpi)
       else raise (RuntimeError "Unknown build system")) ;;
    let '(cfg_cmd, build_cmds) := cmds in
    old_dir <- getcwd ;;
    with_TemporaryDirectory (fun cmake_work_dir =>
      (if String.eqb build_system "cmake" then chdir cmake_work_dir
       else if String.eqb build_system "autotools" then
         let cwd := Path os (get_unpacked_path version hdf5_extract_path) in
         chdir cwd ;;;
         p <- run (Argv ["chmod"; "+x"; "autogen.sh"]) false None false ;;
         check_returncode p ;;;
         p <- run (Argv ["./autogen.sh"]) false (Some cwd) false ;;
         check_returncode p
       else raise (RuntimeError "Unknown build system")) ;;;
      print_stderr ("Configuring HDF5 version " +:+ version +:+ "...") ;;;
      cfg_words <- join_words cfg_cmd ;;
      print_stderr (Py.join " " cfg_words) ;;;
      p <- run (Argv cfg_words) false None true ;;
      print (snd p) ;;;
      check_returncode p ;;;
      print_stderr ("Building HDF5 version " +:+ version +:+ "...") ;;;
      for_each build_cmds (fun cmd =>
        print_stderr (Py.join " " cmd) ;;;
        p <- run (Argv cmd) true None false ;;
        check_returncode p ;;;
        print (snd p)) ;;;
      print_stderr ("Installed HDF5 version " +:+ version +:+ " to " +:+
                    Py.str install_path) ;;;
      chdir old_dir)) ;;;
  if is_win (platform os) then
    print_stderr "Copying HDF5 dlls" ;;;
    pattern <- pjoin install_path ["bin/*.dll"] ;;
    hits <- ask (glob os pattern) ;;
    observe (Glob pattern hits) ;;;
    for_each hits (fun f =>
      lib <- pjoin install_path ["lib"] ;;
      emit (Copy f lib))
  else ret tt.

Definition hdf5_cached (install_path : option string) : M bool :=
  artifact <- pjoin install_path ["lib"; "hdf5.dll"] ;;
  found <- exists_ artifact ;;
  if found then ret true else ret false.

(** The two nested loops that end [main]: every file of every directory
    that [os.walk] yields is printed. *)
Definition print_files (found : tree) : M unit :=
  for_each found (fun '(dirpath, dirnames, filenames) =>
    for_each filenames (fun file =>
      print (" * " +:+ path_join os dirpath [file]))).

Definition main (environ : gmap string string) : M unit :=
  let install_path := environ !! "HDF5_DIR" in
  let version := default DEFAULT_VERSION (environ !! "HDF5_VERSION") in
  let vs_version := environ !! "HDF5_VSVERSION" in
  let use_prefix :=
    match environ !! "H5PY_USE_PREFIX" with Some _ => true | None => false end in
  let with_mpi := bool_decide (environ !! "HDF5_MPI" = Some "ON") in
  match install_path with
  | Some p =>
      found <- exists_ p ;;
      if negb found then makedirs p else ret tt
  | None => ret tt
  end ;;;
  cmake_generator <-
    match vs_version with
    | Some v =>
        match VSVERSION_TO_GENERATOR !! v with
        | Some g =>
            (if String.eqb v "9-64"
             then run (CmdStr "ci\appveyor\vs2008_patch\setup_x64.bat")
                      false None false ;;; ret tt
             else ret tt) ;;;
            ret (Some g)
        | None => raise (KeyError v)
        end
    | None => ret None
    end ;;
  cached <- hdf5_cached install_path ;;
  (if negb cached then
     with_TemporaryFile (
       download_hdf5 version ;;;
       emit Seek0 ;;;
       build_hdf5 version install_path cmake_generator use_prefix with_mpi)
   else print_stderr "using cached hdf5") ;;;
  match install_path with
  | Some p =>
      print_stderr "hdf5 files: " ;;;
      found <- ask (walk os p) ;;
      observe (Walk p found) ;;;
      print_files found
  | None => ret tt
  end.

End Script.

Arguments State {os} ext cwd log.
Arguments ext {os} s.
Arguments cwd {os} s.
Arguments log {os} s.
Arguments print_files : simpl never.
Arguments build_hdf5 : simpl never.
Arguments download_url : simpl never.
Arguments is_error_status : simpl never.

(** A run of the script from a fresh log. *)
Definition run_script (os : OS) (environ : gmap string string)
    (world : Ext os) (dir : string) : result unit * state os :=
  main os environ (State world dir []).

(** The lines the final report prints for what [os.walk] found. *)
Definition report_lines (os : OS) (found : tree) : list string :=
  flat_map (fun '(dirpath, _, filenames) =>
              map (fun file => " * " +:+ path_join os dirpath [file]) filenames)
           found.

(** ** A simulated operating system, to run the script on *)

(** [os.path.join] of posixpath. *)
Fixpoint posix_join (a : string) (rest : list string) : string :=
  match rest with
  | [] => a
  | b :: rest' =>
      posix_join
        (if Py.startswith b "/" then b
         else if String.eqb a "" || Py.endswith a "/" then a +:+ b
         else a +:+ "/" +:+ b)
        rest'
  end.

(** The text of [pathlib.PurePosixPath(s)]: empty and "." components are
    dropped, a leading slash is kept (exactly two leading slashes are kept
    as two), and the empty path is ".". *)
Definition posix_Path (s : string) : string :=
  let parts :=
    List.filter (fun part => negb (String.eqb part "" || String.eqb part "."))
                (Py.split "/" s) in
  let root :=
    if Py.startswith s "//" && negb (Py.startswith s "///") then "//"
    else if Py.startswith s "/" then "/"
    else "" in
  let body := Py.join "/" parts in
  if String.eqb root "" && String.eqb body "" then "." else root +:+ body.

(** Whether a process can be started: off the Windows family a command
    given as one str without a shell names a program file, and the setup
    script is no such file there. *)
Definition sim_spawn_error (plat : string) (i : invocation) : option string :=
  match args i with
  | CmdStr _ =>
      if is_win plat || shell i then None else Some "FileNotFoundError"
  | Argv _ => None
  end.

(** The outside world of the simulation only counts the temporary
    directories handed out so far; no path exists, the request is answered
    with [status], a child process exits with [rc] of its call, the archive
    unpacks and holds the source directory, and every directory but the one
    with the empty name can be created. *)
Definition sim (plat : string) (status : Z) (rc : invocation -> Z)
    (files : tree) : OS :=
  {| Ext := nat;
     platform := plat;
     path_join := posix_join;
     Path := posix_Path;
     path_exists := fun _ _ => false;
     glob := fun _ _ => [];
     walk := fun _ _ => files;
     temp_dir := fun n => "/tmp/tmp" +:+ String (ascii_of_nat (48 + n)) "";
     http_status := fun _ _ => status;
     returncode := fun i _ => rc i;
     output := fun _ _ => "configure: creating Makefile";
     makedirs_error :=
       fun path _ => if String.eqb path "" then Some "FileNotFoundError" else None;
     extract_error := fun _ _ => None;
     chdir_error := fun _ _ => None;
     spawn_error := fun i _ => sim_spawn_error plat i;
     after := fun e n => match e with TempDirCreate _ => S n | _ => n end |}.

Definition all_succeed : invocation -> Z := fun _ => 0.

(** The call of [subprocess.run] whose list of words, joined by blanks, is
    [command] exits with [code]; every other call exits with 0. *)
Definition fails (command : string) (code : Z) : invocation -> Z :=
  fun i => match args i with
           | Argv w => if String.eqb (Py.join " " w) command then code else 0
           | CmdStr _ => 0
           end.

Definition installed_files : tree :=
  [("/tmp/out", ["lib"], []); ("/tmp/out/lib", [], ["libhdf5.so"])].

(** Simulated hosts on which every child process succeeds; on
    [linux_offline] the request is answered with 404 Not Found.  All of them
    join paths the POSIX way. *)
Definition linux : OS := sim "linux" 200 all_succeed installed_files.
Definition linux_offline : OS := sim "linux" 404 all_succeed installed_files.
Definition windows : OS := sim "win32" 200 all_succeed [].

(** A host on which one command exits with status 2. *)
Definition linux_failing (command : string) : OS :=
  sim "linux" 200 (fails command 2) installed_files.

(** A host like [os] with some of its answers replaced. *)
Definition with_answers (os : OS)
    (exists_ : string -> Ext os -> bool)
    (unpack : string -> Ext os -> option string)
    (enter : string -> Ext os -> option string) : OS :=
  {| Ext := Ext os;
     platform := platform os;
     path_join := path_join os;
     Path := Path os;
     path_exists := exists_;
     glob := glob os;
     walk := walk os;
     temp_dir := temp_dir os;
     http_status := http_status os;
     returncode := returncode os;
     output := output os;
     makedirs_error := makedirs_error os;
     extract_error := unpack;
     chdir_error := enter;
     spawn_error := spawn_error os;
     after := after os |}.

(** A host on which the request is answered with 304 Not Modified, which
    carries no body: the empty file that is then unpacked is no tar
    archive. *)
Definition linux_not_modified : OS :=
  let os := sim "linux" 304 all_succeed installed_files in
  with_answers os (path_exists os) (fun _ _ => Some "ReadError") (chdir_error os).

(** A host on which what was downloaded is not a gzip file. *)
Definition linux_bad_archive : OS :=
  with_answers linux (path_exists linux) (fun _ _ => Some "BadGzipFile")
    (chdir_error linux).

(** A host on which the archive unpacks but holds no directory of the
    expected name. *)
Definition linux_other_archive : OS :=
  with_answers linux (path_exists linux) (extract_error linux)
    (fun _ _ => Some "FileNotFoundError").

(** ** Environments of the two end-to-end scenarios *)

Definition environ_windows_1_10_2 : gmap string string :=
  <["HDF5_VERSION" := "1.10.2"]> (<["HDF5_VSVERSION" := "14-64"]> ∅).

Definition environ_linux_1_8_17 : gmap string string :=
  <["HDF5_VERSION" := "1.8.17"]> (<["HDF5_DIR" := "/tmp/out"]> ∅).

(** ** Vocabulary of the claims about runs *)

(** The calls of [subprocess.run] that are followed by [check_returncode]
    are those that pass the command as a list; the one call that passes a
    str, the Visual Studio 2008 setup script, is not checked. *)
Definition checked (i : invocation) : bool :=
  match args i with
  | Argv _ => true
  | CmdStr _ => false
  end.

(** The call of the Visual Studio 2008 setup script, started in [dir]. *)
Definition setup_script (dir : string) : invocation :=
  Invocation (CmdStr "ci\appveyor\vs2008_patch\setup_x64.bat") false dir false.

(** The processes of a log that ran, in order. *)
Definition invocations (l : list event) : list invocation :=
  flat_map (fun e => match e with Run i _ => [i] | _ => [] end) l.

(** Whether a log holds a call of [subprocess.run]. *)
Definition called_subprocess (l : list event) : bool :=
  existsb (fun e => match e with Run _ _ | NotStarted _ _ => true | _ => false end) l.

(** What [subprocess.run] executes off the Windows family, where
    [subprocess] takes its POSIX branch: the words as they are, and with
    [shell=True] the words appended to /bin/sh -c.  A str counts as a list
    of one word. *)
Definition posix_argv (i : invocation) : list string :=
  let words := match args i with Argv words => words | CmdStr line => [line] end in
  if shell i then "/bin/sh" :: "-c" :: words else words.

(** The command text a shell started as [sh -c text name ...] executes: the
    first word after -c.  The words after it are not part of the command:
    the shell takes them as $0, $1, ... *)
Definition shell_command (i : invocation) : option string :=
  if shell i then
    match args i with
    | Argv (text :: _) => Some text
    | Argv [] => None
    | CmdStr line => Some line
    end
  else None.

(** What the script still does once a checked command has failed: print the
    output it captured, and leave its [with] blocks. *)
Definition quiet (e : event) : bool :=
  match e with
  | Stdout _ | TempDirCleanup _ | TempFileClose => true
  | _ => false
  end.

(** Events of the extraction and build step. *)
Definition build_step (e : event) : bool :=
  match e with
  | TempDirCreate _ | TempDirCleanup _ | ExtractZip _ | ExtractGzipTar _
  | Chdir _ | Glob _ _ | Copy _ _ => true
  | Run i _ => checked i
  | _ => false
  end.

Definition is_get (e : event) : bool :=
  match e with
  | HttpGet _ _ => true
  | _ => false
  end.

(** A log in which the first failure of a checked command ends the run with
    [CalledProcessError], and only [quiet] events follow it. *)
Fixpoint fail_fast {A} (r : result A) (l : list event) : Prop :=
  match l with
  | [] => True
  | e :: rest =>
      match e with
      | Run i rc =>
          checked i = true -> rc <> 0 ->
          r = Raised (CalledProcessError rc) /\ Forall (fun e => quiet e = true) rest
      | _ => True
      end /\ fail_fast r rest
  end.

Arguments fail_fast : simpl never.

(** Events that are not a checked command. *)
Definition calm (e : event) : bool :=
  match e with
  | Run i _ => negb (checked i)
  | _ => true
  end.

(** The message [download_hdf5] prints before it exits. *)
Definition download_failure (version : string) : string :=
  "Failed to download hdf5 version " +:+ version +:+ ", exiting".

(** What the log of a run with a request looks like.  The request was for
    the expected URL and nothing before it was a request or a step of the
    build.  When it was answered with an error status, 400 to 599, the run
    ends in [exit(1)] right after the diagnostic; with any other status the
    body is copied to the temporary file, the file rewound and the archive
    unpacked. *)
Definition download_outcome {A} (version expected : string) (r : result A)
    (l : list event) : Prop :=
  forall (url : string) (status : Z),
    In (HttpGet url status) l ->
    url = expected /\
    exists pre post : list event,
      l = (pre ++ Stderr ("Downloading " +:+ url) :: HttpGet url status :: post)%list /\
      Forall (fun e => build_step e = false /\ is_get e = false) pre /\
      if is_error_status status then
        r = Raised (SystemExit 1) /\
        post = [Stderr (download_failure version); TempFileClose]
      else
        exists (tmp : string) (extraction : event) (rest : list event),
          post = (CopyBody :: Seek0 :: TempDirCreate tmp :: extraction :: rest)%list /\
          (extraction = ExtractZip tmp \/ extraction = ExtractGzipTar tmp).

(** ** Vocabulary of the further properties *)

(** The temporary file and directories a log has open, innermost first: a
    temporary directory by its name, the temporary file as [None].  Closing
    anything but the innermost one gives no result. *)
Fixpoint scoped (open : list (option string)) (l : list event)
  : option (list (option string)) :=
  match l with
  | [] => Some open
  | TempFileOpen :: rest => scoped (None :: open) rest
  | TempDirCreate d :: rest => scoped (Some d :: open) rest
  | TempFileClose :: rest =>
      match open with
      | None :: open' => scoped open' rest
      | _ => None
      end
  | TempDirCleanup d :: rest =>
      match open with
      | Some d' :: open' => if String.eqb d d' then scoped open' rest else None
      | _ => None
      end
  | _ :: rest => scoped open rest
  end.

(** The line [main] prints when it finds the artifact. *)
Definition cache_hit (l : list event) : Prop := In (Stderr "using cached hdf5") l.
Arguments cache_hit : simpl never.

(** Events [build_hdf5] can cause: no request, no temporary file, no probe,
    no listing, not the line of a cache hit, and nothing of the copy of the
    dlls. *)
Definition build_event (e : event) : bool :=
  match e with
  | TempDirCreate _ | TempDirCleanup _ | ExtractZip _ | ExtractGzipTar _
  | Chdir _ | Stdout _ => true
  | Run i _ | NotStarted i _ => checked i
  | Stderr line =>
      negb (String.eqb line "using cached hdf5") &&
      negb (String.eqb line "Copying HDF5 dlls")
  | _ => false
  end.

(** A host like [os] on which every path that is probed exists, so that the
    artifact is found. *)
Definition with_artifact (os : OS) : OS :=
  with_answers os (fun _ _ => true) (extract_error os) (chdir_error os).

Definition environ_windows_cached : gmap string string :=
  <["HDF5_DIR" := "C:\hdf5"]> (<["HDF5_VSVERSION" := "9-64"]> ∅).

(** Whether an event is the line of a cache hit. *)
Definition hit_line (e : event) : bool :=
  match e with
  | Stderr line => String.eqb line "using cached hdf5"
  | _ => false
  end.

(** * Properties *)

(** ** Strings *)

Lemma append_length (a b : string) :
  String.length (a +:+ b) = (String.length a + String.length b)%nat.
Proof.
  induction a as [|c a IH]; [reflexivity|].
  change (String c a +:+ b) with (String c (a +:+ b)). cbn. now rewrite IH.
Qed.

Lemma eqb_length_neq (s p : string) :
  String.length s <> String.length p -> String.eqb s p = false.
Proof. intros H. apply String.eqb_neq. intros ->. now apply H. Qed.

(** A suffix no longer than [b] is looked for in [b] alone. *)
Lemma endswith_append (a b p : string) :
  (String.length p <= String.length b)%nat ->
  Py.endswith (a +:+ b) p = Py.endswith b p.
Proof.
  intros Hlen. induction a as [|c a IH]; [reflexivity|].
  change (String c a +:+ b) with (String c (a +:+ b)).
  cbn [Py.endswith]. rewrite IH, eqb_length_neq; [reflexivity|].
  cbn [String.length]. rewrite append_length. lia.
Qed.

Lemma split_nonempty (sep : ascii) (s : string) : Py.split sep s <> [].
Proof.
  destruct s as [|c s]; cbn; [discriminate|].
  destruct (Ascii.eqb c sep); [discriminate|].
  destruct (Py.split sep s); discriminate.
Qed.

(** What [split] returns starts with the text before the first separator. *)
Lemma split_cons (sep : ascii) (s field : string) (fields : list string) :
  Py.split sep s = field :: fields ->
  (fields = [] /\ s = field) \/
  (exists rest, s = field +:+ String sep rest /\ fields = Py.split sep rest).
Proof.
  revert field fields. induction s as [|c s IH]; intros field fields; cbn.
  - intros [= <- <-]. now left.
  - destruct (Ascii.eqb_spec c sep) as [->|Hc].
    + intros [= <- <-]. right. now exists s.
    + destruct (Py.split sep s) as [|f fs] eqn:E.
      * now destruct (split_nonempty sep s).
      * intros [= <- <-]. destruct (IH f fs eq_refl) as [[-> ->]|(r & -> & ->)].
        -- now left.
        -- right. now exists r.
Qed.

Lemma startswith_1_10_dot (v : string) :
  Py.startswith v "1.10." = true <-> exists rest, v = "1.10." +:+ rest.
Proof.
  split.
  - intros H.
    do 5 (destruct v as [|? v]; [discriminate H|];
          cbn [Py.startswith] in H;
          match type of H with
          | context [Ascii.eqb ?x ?y] =>
              destruct (Ascii.eqb_spec x y) as [<-|]; [|discriminate H]
          end;
          cbn [andb] in H).
    now exists v.
  - intros [rest ->]. reflexivity.
Qed.

(** [download_hdf5] takes the 1.10 tree exactly for version "1.10" and the
    versions that start with "1.10.". *)
Lemma series_1_10_iff (version : string) :
  take 2 (Py.split "." version) = ["1"; "10"] <->
  version = "1.10" \/ Py.startswith version "1.10." = true.
Proof.
  rewrite startswith_1_10_dot. split.
  - destruct (Py.split "." version) as [|f1 [|f2 fields]] eqn:E; try discriminate.
    intros [= -> ->].
    apply split_cons in E as [[? _]|(r1 & -> & E)]; [discriminate|].
    symmetry in E. apply split_cons in E as [[_ ->]|(r2 & -> & _)].
    + now left.
    + right. now exists r2.
  - intros [->|[rest ->]]; [reflexivity|].
    cbn. now destruct (Py.split "." rest).
Qed.

(** ** URL selection *)

Lemma url_1_10_2_win :
  download_url "win32" "1.10.2" =
  "https://www.hdfgroup.org/ftp/HDF5/releases/hdf5-1.10/hdf5-1.10.2/src/hdf5-1.10.2.zip".
Proof. reflexivity. Qed.

Lemma url_1_8_17_linux :
  download_url "linux" "1.8.17" =
  "https://www.hdfgroup.org/ftp/HDF5/releases/hdf5-1.8/hdf5-1.8.17/src/hdf5-1.8.17.gzip".
Proof. reflexivity. Qed.

Lemma url_ends_with (base version suffix ext : string) :
  (String.length ext <= String.length suffix)%nat ->
  Py.endswith (base +:+ "hdf5-" +:+ version +:+ suffix) ext = Py.endswith suffix ext.
Proof.
  intros H. rewrite !endswith_append; rewrite ?append_length; auto; lia.
Qed.

(** C3, as stated, fails: version "1.100.0" begins with "1.10", yet its second
    field is "100" and [download_hdf5] takes the 1.8 tree. *)
Lemma download_url_prefix_1_10_counterexample :
  Py.startswith "1.100.0" "1.10" = true /\
  download_url "linux" "1.100.0" =
  "https://www.hdfgroup.org/ftp/HDF5/releases/hdf5-1.8/hdf5-1.100.0/src/hdf5-1.100.0.gzip" /\
  Py.startswith (download_url "linux" "1.100.0")
    "https://www.hdfgroup.org/ftp/HDF5/releases/hdf5-1.10/" = false.
Proof. repeat split; reflexivity. Qed.

(** C3, amended: the URL is a function of the version and the platform.  A
    version that is "1.10" or starts with "1.10." (its first two dot-separated
    fields are "1" and "10") is fetched from the 1.10 release tree, every other
    version from the 1.8 tree; the archive ends in ".zip" exactly on the
    Windows family, and otherwise in ".tar.gz" (1.10 tree) or ".gzip" (1.8
    tree). *)
Theorem download_url_selection (platform version : string) :
  ((version = "1.10" \/ Py.startswith version "1.10." = true) ->
   download_url platform version =
   ("https://www.hdfgroup.org/ftp/HDF5/releases/hdf5-1.10/hdf5-" +:+ version +:+ "/src/")
   +:+ "hdf5-" +:+ version +:+ (if is_win platform then ".zip" else ".tar.gz")) /\
  (~ (version = "1.10" \/ Py.startswith version "1.10." = true) ->
   download_url platform version =
   ("https://www.hdfgroup.org/ftp/HDF5/releases/hdf5-1.8/hdf5-" +:+ version +:+ "/src/")
   +:+ "hdf5-" +:+ version +:+ (if is_win platform then ".zip" else ".gzip")) /\
  Py.endswith (download_url platform version) ".zip" = is_win platform.
Proof.
  unfold download_url, HDF5_110_FILE, HDF5_18_FILE, HDF5_110_URL, HDF5_18_URL.
  repeat split.
  - intros H%series_1_10_iff. rewrite decide_True by assumption.
    now destruct (is_win platform).
  - intros H. rewrite decide_False by (now rewrite series_1_10_iff).
    now destruct (is_win platform).
  - destruct (decide _), (is_win platform);
      rewrite url_ends_with; cbn; try reflexivity; lia.
Qed.

Lemma download_url_selection_witness :
  download_url "linux" "1.10.2" =
  ("https://www.hdfgroup.org/ftp/HDF5/releases/hdf5-1.10/hdf5-" +:+ "1.10.2" +:+ "/src/")
  +:+ "hdf5-" +:+ "1.10.2" +:+ ".tar.gz".
Proof.
  apply (proj1 (download_url_selection "linux" "1.10.2")).
  right. reflexivity.
Defined.

(** ** The CMake install-prefix argument *)

(** C7: without an install path the argument is a single blank, which is not
    a flag and not the flag template filled in with the text "None"; with an
    install path it is the -DCMAKE_INSTALL_PREFIX flag for that path. *)
Theorem get_cmake_install_path_spec :
  get_cmake_install_path None = " " /\
  Py.startswith (get_cmake_install_path None) "-" = false /\
  get_cmake_install_path None <> CMAKE_INSTALL_PATH_ARG (Py.str None) /\
  forall p : string,
    get_cmake_install_path (Some p) = "-DCMAKE_INSTALL_PREFIX=" +:+ p.
Proof. repeat split; discriminate. Qed.

(** ** The cache check *)

(** C6: for an install path [p], [hdf5_cached] returns whether
    lib/hdf5.dll under [p] exists.  It looks at nothing else, and leaves the
    outside world and the working directory as they were: the one probe is all
    it adds to the log. *)
Theorem hdf5_cached_spec (os : OS) (p : string) (st : state os) :
  let artifact := path_join os p ["lib"; "hdf5.dll"] in
  let found := path_exists os artifact (ext st) in
  hdf5_cached os (Some p) st =
  (Returned found,
   State (ext st) (cwd st) (log st ++ [PathExists artifact found])%list) /\
  forall st2 : state os,
    path_exists os artifact (ext st2) = found ->
    fst (hdf5_cached os (Some p) st2) = Returned found.
Proof.
  cbn. split.
  - unfold hdf5_cached, bind, pjoin, exists_, ask, observe, ret; cbn.
    now destruct (path_exists os _ (ext st)).
  - intros st2 H.
    unfold hdf5_cached, bind, pjoin, exists_, ask, observe, ret; cbn.
    rewrite H. now destruct (path_exists os _ (ext st)).
Qed.

Lemma hdf5_cached_spec_witness :
  fst (hdf5_cached windows (Some "C:\hdf5") (@State windows 7%nat "C:\ci" [])) =
  Returned false.
Proof.
  apply (proj2 (hdf5_cached_spec windows "C:\hdf5" (@State windows 0%nat "C:\ci" []))).
  reflexivity.
Defined.

(** ** The build step on the Windows family *)

Ltac unfold_script :=
  unfold hdf5_cached, download_hdf5, call_get_cmake_cmds,
    with_TemporaryFile, with_TemporaryDirectory, exists_, makedirs,
    extract_zip, extract_gzip_tar, fallible, pjoin,
    run, check_returncode, raise_for_status, join_words, print_stderr, print,
    getcwd, chdir, try_except, finally, bind, ask, emit, observe, raise, ret.

(** C9: on the Windows family [build_hdf5] calls [get_cmake_cmds] with four
    of its five required arguments, so every build attempt raises TypeError
    right after the archive is unpacked: the temporary directory is created,
    the zip extracted into it and the directory removed again; no command is
    built or run and the working directory is not touched.  (When the
    archive does not unzip, the step ends one statement earlier, with the
    error of the extraction and the same log.) *)
Theorem build_hdf5_windows_TypeError (os : OS) (version : string)
    (install_path cmake_generator : option string) (use_prefix with_mpi : bool)
    (st : state os) :
  is_win (platform os) = true ->
  let d := temp_dir os (ext st) in
  let unzip_error := extract_error os d (after os (TempDirCreate d) (ext st)) in
  exists world,
    build_hdf5 os version install_path cmake_generator use_prefix with_mpi st =
    (Raised match unzip_error with
            | None => TypeError
            | Some name => LibraryError name
            end,
     State world (cwd st)
       (log st ++ [TempDirCreate d; ExtractZip d; TempDirCleanup d])%list).
Proof.
  intros Hwin d unzip_error. subst d unzip_error. eexists.
  unfold build_hdf5. rewrite Hwin. unfold_script. cbn.
  destruct (extract_error os _ _); cbn; rewrite <- !app_assoc; reflexivity.
Qed.

Lemma build_hdf5_windows_TypeError_witness :
  exists world,
    build_hdf5 windows "1.10.2" (Some "C:\hdf5")
      (Some "Visual Studio 14 2015 Win64") false false
      (@State windows 0%nat "C:\ci" []) =
    (Raised TypeError,
     @State windows world "C:\ci"
       [TempDirCreate "/tmp/tmp0"; ExtractZip "/tmp/tmp0"; TempDirCleanup "/tmp/tmp0"]).
Proof.
  apply (build_hdf5_windows_TypeError windows "1.10.2" (Some "C:\hdf5")
           (Some "Visual Studio 14 2015 Win64") false false
           (@State windows 0%nat "C:\ci" [])).
  reflexivity.
Defined.

(** ** Runs without an install path *)

(** C1 (the code does otherwise): with version 1.10.2, generator token 14-64
    and no HDF5_DIR, [main] raises TypeError in [hdf5_cached None] before it
    has done anything at all: nothing is downloaded, extracted, configured or
    copied, on any platform. *)
Theorem main_1_10_2_no_install_path (os : OS) (st : state os) :
  main os environ_windows_1_10_2 st = (Raised TypeError, st).
Proof. reflexivity. Qed.

Lemma main_1_10_2_windows_exit_status :
  let '(r, st) := run_script windows environ_windows_1_10_2 0%nat "C:\ci" in
  exit_status r = 1 /\ log st = [].
Proof. split; reflexivity. Qed.

(** The recognised generator tokens. *)
Lemma generator_14_64 :
  VSVERSION_TO_GENERATOR !! "14-64" = Some "Visual Studio 14 2015 Win64".
Proof. reflexivity. Qed.

Lemma generator_15 : VSVERSION_TO_GENERATOR !! "15" = None.
Proof. reflexivity. Qed.

(** C10, as stated, fails: with HDF5_DIR unset and an unknown generator token
    the table lookup raises KeyError first, and [hdf5_cached] is never
    called. *)
Lemma main_no_install_path_counterexample :
  let environ : gmap string string := <["HDF5_VSVERSION" := "15"]> ∅ in
  environ !! "HDF5_DIR" = None /\
  run_script linux environ 0%nat "/home/ci" =
  (Raised (KeyError "15"), @State linux 0%nat "/home/ci" []).
Proof. split; reflexivity. Qed.

(** With token 9-64 the setup script comes before [hdf5_cached]: where it
    cannot be started, as off the Windows family, the run ends there with the
    error of [subprocess.run]. *)
Lemma main_no_install_path_9_64 :
  let environ : gmap string string := <["HDF5_VSVERSION" := "9-64"]> ∅ in
  environ !! "HDF5_DIR" = None /\
  run_script linux environ 0%nat "/home/ci" =
  (Raised (LibraryError "FileNotFoundError"),
   @State linux 0%nat "/home/ci"
     [NotStarted (setup_script "/home/ci") "FileNotFoundError"]).
Proof. split; reflexivity. Qed.

(** C10, amended: with HDF5_DIR unset every run ends in an uncaught exception
    before any download, extraction or build step, in the directory it
    started in.  With an unrecognised generator token the exception is the
    KeyError of the lookup.  With token 9-64 the setup script is called
    first: if it cannot be started the exception is the error of that call,
    and [hdf5_cached] is not reached.  In every other case it is the
    TypeError of [hdf5_cached None].  The call of the setup script is the
    only thing the run can have done. *)
Theorem main_no_install_path (os : OS) (environ : gmap string string)
    (st : state os) :
  environ !! "HDF5_DIR" = None ->
  let setup := setup_script (cwd st) in
  exists (e : exn) (st' : state os),
    main os environ st = (Raised e, st') /\
    cwd st' = cwd st /\
    match environ !! "HDF5_VSVERSION" with
    | None => e = TypeError /\ log st' = log st
    | Some v =>
        match VSVERSION_TO_GENERATOR !! v with
        | None => e = KeyError v /\ log st' = log st
        | Some _ =>
            if String.eqb v "9-64" then
              match spawn_error os setup (ext st) with
              | Some name =>
                  e = LibraryError name /\
                  log st' = (log st ++ [NotStarted setup name])%list
              | None =>
                  e = TypeError /\
                  exists rc, log st' = (log st ++ [Run setup rc])%list
              end
            else e = TypeError /\ log st' = log st
        end
    end.
Proof.
  intros Hdir setup. subst setup. unfold main, setup_script. rewrite Hdir.
  destruct (environ !! "HDF5_VSVERSION") as [v|] eqn:Hv.
  - destruct (VSVERSION_TO_GENERATOR !! v) as [g|] eqn:Hg.
    + destruct (String.eqb_spec v "9-64") as [->|Hne].
      * unfold_script. cbn. destruct (spawn_error os _ _); cbn.
        -- do 2 eexists. repeat split.
        -- do 2 eexists. repeat split. eauto.
      * unfold_script. cbn. do 2 eexists. repeat split.
    + unfold_script. cbn. do 2 eexists. repeat split.
  - unfold_script. cbn. do 2 eexists. repeat split.
Qed.

Lemma main_no_install_path_witness :
  exists (e : exn) (st' : state windows),
    main windows environ_windows_1_10_2 (@State windows 0%nat "C:\ci" []) = (Raised e, st') /\
    cwd st' = "C:\ci" /\ e = TypeError /\ log st' = [].
Proof.
  apply (main_no_install_path windows environ_windows_1_10_2 (@State windows 0%nat "C:\ci" [])).
  reflexivity.
Defined.

(** ** The working directory across the build step *)

(** Symbolic execution of the script: unfold the monad, and name each answer
    of the operating system as it is met, in the order of the calls.  An
    answer is named once the outside world it is asked of has a name, and
    the outside world after an event once the answers in it have. *)
Ltac simp_script := repeat progress (unfold_script; cbn).

Ltac name_failure oracle :=
  let failed := fresh "failed" in
  generalize oracle; intros failed; destruct failed as [?error|].

Ltac name_answer :=
  match goal with
  | |- context [temp_dir ?os ?w] =>
      is_var w; let d := fresh "tmp" in generalize (temp_dir os w); intros d
  | |- context [path_exists ?os ?p ?w] =>
      is_var w;
      let b := fresh "found" in
      generalize (path_exists os p w); intros b; destruct b
  | |- context [makedirs_error ?os ?p ?w] =>
      is_var w; name_failure (makedirs_error os p w)
  | |- context [extract_error ?os ?d ?w] =>
      is_var w; name_failure (extract_error os d w)
  | |- context [chdir_error ?os ?p ?w] =>
      is_var w; name_failure (chdir_error os p w)
  | |- context [spawn_error ?os ?i ?w] =>
      is_var w; name_failure (spawn_error os i w)
  | |- context [output ?os ?i ?w] =>
      is_var w; let o := fresh "out" in generalize (output os i w); intros o
  | |- context [Z.eqb (returncode ?os ?i ?w) 0] =>
      is_var w;
      let rc := fresh "rc" in
      generalize (returncode os i w); intros rc;
      destruct (Z.eqb_spec rc 0) as [->|?]
  | |- context [returncode ?os ?i ?w] =>
      is_var w; let rc := fresh "rc" in generalize (returncode os i w); intros rc
  | |- context [http_status ?os ?u ?w] =>
      is_var w;
      let status := fresh "status" in
      let H := fresh "Hstatus" in
      generalize (http_status os u w); intros status;
      destruct (is_error_status status) eqn:H
  | |- context [walk ?os ?p ?w] =>
      is_var w; let t := fresh "files" in generalize (walk os p w); intros t
  end.

(** Naming the outside world after each event keeps the terms small. *)
Ltac name_world :=
  match goal with
  | |- context [after ?os ?e ?w] =>
      is_var w;
      let w' := fresh "world" in generalize (after os e w); intros w'
  end.

Ltac sym_exec :=
  simp_script;
  repeat (first [name_answer | name_world]; simp_script).

(** Symbolic execution from a state given as a variable. *)
Ltac from_state st :=
  let w := fresh "world" in
  let here := fresh "here" in
  let before := fresh "before" in
  destruct st as [w here before]; cbn [ext cwd log].

(** C8, as stated, fails: when make install exits with status 2 the build
    step ends with the script still inside the unpacked source directory. *)
Lemma build_hdf5_cwd_counterexample :
  let os := linux_failing "make install" in
  let '(r, st) :=
    build_hdf5 os "1.8.17" (Some "/tmp/out") None false false
      (@State os 0%nat "/home/ci" []) in
  r = Raised (CalledProcessError 2) /\
  cwd st = "/tmp/tmp0/hdf5-1.8.17" /\
  cwd st <> "/home/ci".
Proof. vm_compute. split; [reflexivity|split; [reflexivity|discriminate]]. Qed.

(** An abort before the step has changed directory: what was downloaded does
    not unpack, and the step ends where it started. *)
Lemma build_hdf5_cwd_bad_archive :
  let '(r, st) :=
    build_hdf5 linux_bad_archive "1.8.17" (Some "/tmp/out") None false false
      (@State linux_bad_archive 0%nat "/home/ci" []) in
  r = Raised (LibraryError "BadGzipFile") /\ cwd st = "/home/ci".
Proof. vm_compute. split; reflexivity. Qed.

(** Another one: the archive unpacks but holds no directory of the expected
    name, so [chdir] raises and the step ends where it started. *)
Lemma build_hdf5_cwd_other_archive :
  let '(r, st) :=
    build_hdf5 linux_other_archive "1.8.17" (Some "/tmp/out") None false false
      (@State linux_other_archive 0%nat "/home/ci" []) in
  r = Raised (LibraryError "FileNotFoundError") /\ cwd st = "/home/ci" /\
  In (Chdir "/tmp/tmp0/hdf5-1.8.17") (log st).
Proof. vm_compute. split; [reflexivity|]. split; [reflexivity|]. do 3 right. now left. Qed.

(** C8, amended: when the build step returns normally the working directory
    is what it was before the step.  When the step ends in an exception
    after it has called a subprocess, the directory is not restored: the
    script is left in the unpacked source directory it changed into.  When
    it ends in an exception before any subprocess was called, the directory
    is what it was before the step. *)
Theorem build_hdf5_cwd (os : OS) (version : string)
    (install_path cmake_generator : option string) (use_prefix with_mpi : bool)
    (st : state os) :
  exists (r : result unit) (world : Ext os) (dir : string) (new : list event),
    build_hdf5 os version install_path cmake_generator use_prefix with_mpi st =
    (r, State world dir (log st ++ new)%list) /\
    dir =
    match r with
    | Returned _ => cwd st
    | Raised _ =>
        if called_subprocess new
        then Path os (get_unpacked_path os version (temp_dir os (ext st)))
        else cwd st
    end.
Proof.
  from_state st.
  unfold build_hdf5. destruct (is_win (platform os)) eqn:Hwin.
  - sym_exec; rewrite <- ?app_assoc; do 4 eexists; (split; [reflexivity|]);
      reflexivity.
  - unfold get_autotools_cmds.
    destruct install_path as [p|], with_mpi; sym_exec; rewrite <- ?app_assoc;
      do 4 eexists; (split; [reflexivity|]); reflexivity.
Qed.

(** ** The final report *)

Lemma for_each_print (os : OS) (line : string -> string) (items : list string)
    (st : state os) :
  exists world,
    for_each os items (fun x => print os (line x)) st =
    (Returned tt, State world (cwd st) (log st ++ map (fun x => Stdout (line x)) items)%list).
Proof.
  revert st. induction items as [|x items IH]; intros st; cbn [for_each map].
  - exists (ext st). unfold ret. rewrite app_nil_r. now destruct st.
  - unfold bind at 1. unfold print at 1, emit. cbn [ext cwd log].
    destruct (IH (State (after os (Stdout (line x)) (ext st)) (cwd st)
                    (log st ++ [Stdout (line x)])%list)) as [world ->].
    exists world. cbn. now rewrite <- app_assoc.
Qed.

(** [print_files] prints one line per file and does nothing else. *)
Lemma print_files_spec (os : OS) (found : tree) (st : state os) :
  exists world,
    print_files os found st =
    (Returned tt,
     State world (cwd st) (log st ++ map Stdout (report_lines os found))%list).
Proof.
  unfold print_files. revert st.
  induction found as [|[[dirpath dirnames] filenames] found IH]; intros st;
    cbn [for_each report_lines flat_map map].
  - exists (ext st). unfold ret. rewrite app_nil_r. now destruct st.
  - unfold bind at 1.
    destruct (for_each_print os (fun file => " * " +:+ path_join os dirpath [file])
                filenames st) as [w1 ->].
    destruct (IH (State w1 (cwd st)
                    (log st ++ map (fun x => Stdout (" * " +:+ path_join os dirpath [x]))
                                   filenames)%list)) as [w2 ->].
    exists w2. cbn. rewrite map_app, map_map, <- app_assoc. reflexivity.
Qed.

Ltac run_print_files :=
  match goal with
  | |- context [print_files ?os ?found ?st] =>
      let w := fresh "world" in
      destruct (print_files_spec os found st) as [w ->]
  end.

(** ** Failing fast *)

Lemma quiet_fail_fast {A} (r : result A) (l : list event) :
  Forall (fun e => quiet e = true) l -> fail_fast r l.
Proof.
  induction 1 as [|e l He _ IH]; cbn; [exact I|].
  split; [|exact IH]. now destruct e.
Qed.

Lemma fail_fast_app_calm {A} (r : result A) (l1 l2 : list event) :
  Forall (fun e => calm e = true) l1 -> fail_fast r l2 -> fail_fast r (l1 ++ l2).
Proof.
  induction 1 as [|e l1 He _ IH]; intros H2; cbn; [exact H2|].
  split; [|exact (IH H2)].
  destruct e; try exact I. cbn in He. intros Hc. rewrite Hc in He. discriminate.
Qed.

Lemma fail_fast_app_quiet {A} (r : result A) (l1 l2 : list event) :
  fail_fast r l1 -> Forall (fun e => quiet e = true) l2 -> fail_fast r (l1 ++ l2).
Proof.
  intros H1 H2. induction l1 as [|e l1 IH]; cbn.
  - now apply quiet_fail_fast.
  - destruct H1 as [He H1]. split; [|exact (IH H1)].
    destruct e; try exact I. intros Hc Hrc.
    destruct (He Hc Hrc) as [-> Hq]. split; [reflexivity|].
    apply Forall_app. now split.
Qed.

Lemma fail_fast_returned_app {A B} (a : A) (b : B) (l1 l2 : list event) :
  fail_fast (Returned a) l1 -> Forall (fun e => calm e = true) l2 ->
  fail_fast (Returned b) (l1 ++ l2).
Proof.
  intros H1 H2. induction l1 as [|e l1 IH]; cbn.
  - rewrite <- (app_nil_r l2). apply fail_fast_app_calm; [exact H2|exact I].
  - destruct H1 as [He H1]. split; [|exact (IH H1)].
    destruct e; try exact I. intros Hc Hrc.
    destruct (He Hc Hrc) as [? _]. discriminate.
Qed.

(** The first failing checked command in a fail-fast log decides the result,
    and nothing but quiet events comes after it. *)
Lemma fail_fast_split {A} (r : result A) (pre post : list event)
    (i : invocation) (rc : Z) :
  fail_fast r (pre ++ Run i rc :: post) ->
  checked i = true -> rc <> 0 ->
  r = Raised (CalledProcessError rc) /\ Forall (fun e => quiet e = true) post.
Proof.
  induction pre as [|e pre IH]; cbn.
  - intros [H _] Hc Hrc. exact (H Hc Hrc).
  - intros [_ H]. exact (IH H).
Qed.

Lemma calm_map_Stdout (lines : list string) :
  Forall (fun e => calm e = true) (map Stdout lines).
Proof. induction lines; now constructor. Qed.

Lemma no_get_map_Stdout (lines : list string) :
  Forall (fun e => is_get e = false) (map Stdout lines).
Proof. induction lines; now constructor. Qed.

(** ** Every outcome of the build step *)

Ltac flatten_log := rewrite <- ?app_assoc; cbn [app].

(** Whatever the operating system answers, the events of [build_hdf5] are
    appended to the log, none of them is a download, the step fails fast,
    and it begins by unpacking the archive into a temporary directory. *)
Lemma build_hdf5_outcomes (os : OS) (version : string)
    (install_path cmake_generator : option string) (use_prefix with_mpi : bool)
    (st : state os) :
  exists (r : result unit) (world : Ext os) (dir : string) (new : list event),
    build_hdf5 os version install_path cmake_generator use_prefix with_mpi st =
    (r, State world dir (log st ++ new)%list) /\
    fail_fast r new /\
    Forall (fun e => is_get e = false) new /\
    exists (tmp : string) (extraction : event) (rest : list event),
      new = TempDirCreate tmp :: extraction :: rest /\
      (extraction = ExtractZip tmp \/ extraction = ExtractGzipTar tmp).
Proof.
  from_state st.
  unfold build_hdf5. destruct (is_win (platform os)) eqn:Hwin.
  - sym_exec; flatten_log; do 4 eexists; (split; [reflexivity|]);
      (split; [cbv beta iota delta [fail_fast]; tauto|]);
      (split; [repeat constructor|]);
      do 3 eexists; split; [reflexivity | now left | reflexivity | now left].
  - unfold get_autotools_cmds.
    destruct install_path as [p|], with_mpi; sym_exec; flatten_log;
      (do 4 eexists; split; [reflexivity|]; split;
       [ cbv beta iota delta [fail_fast];
         repeat split; intros; try congruence; repeat constructor |];
       split; [repeat constructor|];
       do 3 eexists; split; [reflexivity | now right]).
Qed.

(** ** Every outcome of a run *)

Ltac run_build_hdf5 :=
  match goal with
  | |- context [build_hdf5 ?os ?v ?ip ?g ?u ?m ?st] =>
      let r := fresh "built" in
      let w := fresh "world" in
      let d := fresh "dir" in
      let new := fresh "new" in
      let Hff := fresh "Hfail_fast" in
      let Hget := fresh "Hno_get" in
      let Hnew := fresh "Hunpack" in
      destruct (build_hdf5_outcomes os v ip g u m st)
        as (r & w & d & new & -> & Hff & Hget & Hnew);
      destruct r as [[]|?]
  end.

Ltac run_main :=
  sym_exec;
  try (run_build_hdf5; sym_exec);
  try (run_print_files; cbn).

(** Case analysis on the environment variables [main] reads. *)
Ltac case_environ environ :=
  generalize (default DEFAULT_VERSION (environ !! "HDF5_VERSION")); intros version;
  generalize (bool_decide (environ !! "HDF5_MPI" = Some "ON")); intros with_mpi;
  generalize (match environ !! "H5PY_USE_PREFIX" with
              | Some _ => true
              | None => false
              end); intros use_prefix;
  destruct (environ !! "HDF5_DIR") as [?p|];
  (destruct (environ !! "HDF5_VSVERSION") as [?v|];
   [ match goal with
     | v : string |- _ =>
         destruct (VSVERSION_TO_GENERATOR !! v) as [?g|] eqn:?Hgen;
         [ destruct (String.eqb_spec v "9-64") | ]
     end
   | ]).

Lemma fail_fast_cons_calm {A} (r : result A) (e : event) (l : list event) :
  calm e = true -> fail_fast r l -> fail_fast r (e :: l).
Proof. intros He Hl. now apply (fail_fast_app_calm r [e] l); [constructor|]. Qed.

Lemma fail_fast_calm {A} (r : result A) (l : list event) :
  Forall (fun e => calm e = true) l -> fail_fast r l.
Proof.
  intros H. rewrite <- (app_nil_r l). now apply fail_fast_app_calm.
Qed.

Lemma download_outcome_none {A} (version expected : string) (r : result A)
    (l : list event) :
  Forall (fun e => is_get e = false) l -> download_outcome version expected r l.
Proof.
  intros H url status Hin. rewrite List.Forall_forall in H.
  now specialize (H _ Hin).
Qed.

Lemma download_outcome_cons {A} (version expected : string) (r : result A)
    (e : event) (l : list event) :
  build_step e = false -> is_get e = false ->
  download_outcome version expected r l ->
  download_outcome version expected r (e :: l).
Proof.
  intros Hstep Hget H url status [->|Hin]; [discriminate Hget|].
  destruct (H url status Hin) as (-> & pre & post & -> & Hpre & Hpost).
  split; [reflexivity|]. exists (e :: pre), post.
  split; [reflexivity|]. split; [|exact Hpost]. now constructor.
Qed.

Lemma download_outcome_here {A} (version url : string) (status : Z)
    (r : result A) (post : list event) :
  Forall (fun e => is_get e = false) post ->
  (if is_error_status status then
     r = Raised (SystemExit 1) /\
     post = [Stderr (download_failure version); TempFileClose]
   else
     exists (tmp : string) (extraction : event) (rest : list event),
       post = (CopyBody :: Seek0 :: TempDirCreate tmp :: extraction :: rest)%list /\
       (extraction = ExtractZip tmp \/ extraction = ExtractGzipTar tmp)) ->
  download_outcome version url r
    (Stderr ("Downloading " +:+ url) :: HttpGet url status :: post).
Proof.
  intros Hpost H url' status' [Hin|[Hin|Hin]].
  - discriminate Hin.
  - injection Hin as <- <-. split; [reflexivity|].
    exists [], post. split; [reflexivity|]. split; [apply List.Forall_nil | exact H].
  - rewrite List.Forall_forall in Hpost. now specialize (Hpost _ Hin).
Qed.

(** Proving that no event of a log made of known events, the events of the
    build step and the lines of the listing is a request. *)
Ltac no_request :=
  rewrite <- ?app_assoc;
  repeat first
    [ apply List.Forall_nil
    | apply List.Forall_cons; [reflexivity|]
    | apply List.Forall_app; split
    | assumption
    | apply no_get_map_Stdout ].

Ltac the_request :=
  first
    [ apply download_outcome_here; [solve [no_request]|]
    | apply download_outcome_cons; [reflexivity|reflexivity|]; the_request ].

Ltac solve_download :=
  rewrite <- ?app_assoc; cbn [app];
  first
    [ solve [apply download_outcome_none; no_request]
    | the_request;
      match goal with
      | H : is_error_status ?s = _ |- context [is_error_status ?s] => rewrite H
      end;
      first
        [ solve [split; reflexivity]
        | match goal with
          | H : exists tmp extraction rest, ?new = _ /\ _ |- _ =>
              let tmp := fresh "tmp" in
              let x := fresh "extraction" in
              let rest := fresh "rest" in
              let Hx := fresh "Hx" in
              destruct H as (tmp & x & rest & -> & Hx);
              exists tmp, x; eexists; split; [reflexivity | exact Hx]
          end ] ].

Ltac solve_fail_fast :=
  repeat (apply fail_fast_cons_calm; [reflexivity|]);
  rewrite <- ?app_assoc;
  first
    [ exact I
    | solve [apply quiet_fail_fast; repeat constructor]
    | solve [apply fail_fast_calm, calm_map_Stdout]
    | solve [apply fail_fast_app_quiet; [assumption | repeat constructor]]
    | solve [eapply fail_fast_returned_app; [eassumption|];
             repeat (apply List.Forall_cons; [reflexivity|]);
             apply calm_map_Stdout] ].

Lemma run_script_outcomes (os : OS) (environ : gmap string string)
    (world : Ext os) (start : string) :
  let '(r, st) := run_script os environ world start in
  fail_fast r (log st) /\
  let version := default DEFAULT_VERSION (environ !! "HDF5_VERSION") in
  download_outcome version (download_url (platform os) version) r (log st).
Proof.
  unfold run_script, main. cbv zeta.
  case_environ environ.
  all: run_main.
  all: split; [solve_fail_fast | solve_download].
Qed.

(** ** A failed download *)

Lemma is_error_status_spec (status : Z) :
  is_error_status status = true <-> 400 <= status < 600.
Proof. unfold is_error_status. lia. Qed.

(** C4, as stated, fails: a request answered with 304 Not Modified is not a
    success status, yet [raise_for_status] does not raise for it.  The
    script prints no diagnostic and goes on to unpack what it was sent. *)
Lemma download_status_304_counterexample :
  let run := run_script linux_not_modified environ_linux_1_8_17 0%nat "/home/ci" in
  let url :=
    "https://www.hdfgroup.org/ftp/HDF5/releases/hdf5-1.8/hdf5-1.8.17/src/hdf5-1.8.17.gzip" in
  In (HttpGet url 304) (log (snd run)) /\
  ~ 200 <= 304 < 300 /\
  fst run = Raised (LibraryError "ReadError") /\
  ~ In (Stderr (download_failure "1.8.17")) (log (snd run)) /\
  In (ExtractGzipTar "/tmp/tmp0") (log (snd run)).
Proof.
  vm_compute.
  split; [do 5 right; left; reflexivity|].
  split; [intros [_ H]; discriminate H|].
  split; [reflexivity|].
  split.
  - intros H. repeat (destruct H as [H|H]; [discriminate H|]). exact H.
  - do 9 right. left. reflexivity.
Qed.

(** C4, amended: a run makes its request for the URL of the version asked
    for.  If the answer has a client or server error status, 400 to 599, the
    run ends in [exit(1)]: the exit status is 1, and the log ends with the
    request, the diagnostic that names the version and the closing of the
    temporary file; there is no second request, and no event of the whole
    run is an extraction or a step of the build.  With any other status,
    2xx or not, the body is copied into the temporary file, and the run goes
    on to unpack it. *)
Theorem download_failure_exits (os : OS) (environ : gmap string string)
    (world : Ext os) (start : string) (r : result unit) (st : state os)
    (url : string) (status : Z) :
  run_script os environ world start = (r, st) ->
  In (HttpGet url status) (log st) ->
  let version := default DEFAULT_VERSION (environ !! "HDF5_VERSION") in
  url = download_url (platform os) version /\
  (400 <= status < 600 ->
   r = Raised (SystemExit 1) /\
   exit_status r = 1 /\
   (exists pre : list event,
      log st =
      (pre ++ [Stderr ("Downloading " +:+ url); HttpGet url status;
               Stderr ("Failed to download hdf5 version " +:+ version +:+ ", exiting");
               TempFileClose])%list /\
      Forall (fun e => is_get e = false) pre) /\
   Forall (fun e => build_step e = false) (log st)) /\
  (~ 400 <= status < 600 ->
   exists (pre : list event) (tmp : string) (extraction : event)
          (rest : list event),
     log st =
     (pre ++ Stderr ("Downloading " +:+ url) :: HttpGet url status ::
             CopyBody :: Seek0 :: TempDirCreate tmp :: extraction :: rest)%list /\
     (extraction = ExtractZip tmp \/ extraction = ExtractGzipTar tmp)).
Proof.
  intros Hrun Hin version.
  pose proof (run_script_outcomes os environ world start) as H.
  rewrite Hrun in H. destruct H as [_ H].
  destruct (H url status Hin) as (-> & pre & post & Hlog & Hpre & Hpost).
  split; [reflexivity|]. split.
  - intros Hstatus. apply is_error_status_spec in Hstatus.
    rewrite Hstatus in Hpost. destruct Hpost as [-> ->].
    repeat split; try reflexivity.
    + exists pre. split; [exact Hlog|].
      revert Hpre. apply List.Forall_impl. now intros e [_ ?].
    + rewrite Hlog. apply List.Forall_app. split.
      * revert Hpre. apply List.Forall_impl. now intros e [? _].
      * repeat constructor.
  - intros Hstatus.
    destruct (is_error_status status) eqn:E;
      [now apply is_error_status_spec in E|].
    destruct Hpost as (tmp & extraction & rest & -> & Hx).
    now exists pre, tmp, extraction, rest.
Qed.

Lemma download_failure_exits_witness :
  let run := run_script linux_offline environ_linux_1_8_17 0%nat "/home/ci" in
  fst run = Raised (SystemExit 1) /\ exit_status (fst run) = 1 /\
  Forall (fun e => build_step e = false) (log (snd run)).
Proof.
  intros run.
  destruct (download_failure_exits linux_offline environ_linux_1_8_17 0%nat
              "/home/ci" (fst run) (snd run)
              "https://www.hdfgroup.org/ftp/HDF5/releases/hdf5-1.8/hdf5-1.8.17/src/hdf5-1.8.17.gzip"
              404 (surjective_pairing run))
    as (_ & H & _).
  - vm_compute. do 5 right. left. reflexivity.
  - destruct H as (Hr & Hexit & _ & Hlog); [lia|].
    exact (conj Hr (conj Hexit Hlog)).
Defined.

(** ** A failed command *)

(** C5: when a checked command (chmod, autogen.sh, configure, make or make
    install) exits with a nonzero status, the run ends there with
    [CalledProcessError]: the exit status is 1, and all that follows the
    command in the log is the printing of captured output and the leaving of
    the [with] blocks; no further command is run and the installed files are
    not listed. *)
Theorem failed_command_aborts (os : OS) (environ : gmap string string)
    (world : Ext os) (start : string) (r : result unit) (st : state os)
    (pre post : list event) (i : invocation) (rc : Z) :
  run_script os environ world start = (r, st) ->
  log st = (pre ++ Run i rc :: post)%list ->
  checked i = true ->
  rc <> 0 ->
  r = Raised (CalledProcessError rc) /\
  exit_status r = 1 /\
  Forall (fun e => quiet e = true) post /\
  (forall j rc', ~ In (Run j rc') post) /\
  (forall top found, ~ In (Walk top found) post).
Proof.
  intros Hrun Hlog Hi Hrc.
  pose proof (run_script_outcomes os environ world start) as H.
  rewrite Hrun in H. destruct H as [H _]. rewrite Hlog in H.
  destruct (fail_fast_split r pre post i rc H Hi Hrc) as [-> Hq].
  repeat split; try assumption.
  - intros j rc' Hin. rewrite List.Forall_forall in Hq.
    now specialize (Hq _ Hin).
  - intros top found Hin. rewrite List.Forall_forall in Hq.
    now specialize (Hq _ Hin).
Qed.

Lemma failed_command_aborts_witness :
  let run :=
    run_script (linux_failing "make install") environ_linux_1_8_17 0%nat "/home/ci" in
  fst run = Raised (CalledProcessError 2) /\ exit_status (fst run) = 1 /\
  Forall (fun e => quiet e = true) (skipn 24 (log (snd run))).
Proof.
  intros run.
  destruct (failed_command_aborts (linux_failing "make install")
              environ_linux_1_8_17 0%nat "/home/ci" (fst run) (snd run)
              (firstn 23 (log (snd run))) (skipn 24 (log (snd run)))
              (Invocation (Argv ["make"; "install"]) true
                 "/tmp/tmp0/hdf5-1.8.17" false)
              2 (surjective_pairing run))
    as (Hr & Hexit & Hq & _).
  - vm_compute. reflexivity.
  - reflexivity.
  - discriminate.
  - exact (conj Hr (conj Hexit Hq)).
Defined.

(** ** The Linux end-to-end scenario *)

Lemma download_url_1_8_17 (platform : string) :
  is_win platform = false ->
  download_url platform "1.8.17" =
  "https://www.hdfgroup.org/ftp/HDF5/releases/hdf5-1.8/hdf5-1.8.17/src/hdf5-1.8.17.gzip".
Proof.
  intros H. unfold download_url, HDF5_18_FILE. rewrite H. reflexivity.
Qed.

(** The log of the scenario, as the calls the script makes: off the Windows
    family, with HDF5_DIR=/tmp/out, version 1.8.17, no generator token and
    MPI not switched on, every run that misses the cache and returns
    normally probes and if needed creates /tmp/out, probes the cached
    artifact, downloads the .gzip archive of the 1.8 tree, unpacks it with
    gzip and tar, changes into the unpacked hdf5-1.8.17 directory, calls
    [subprocess.run] on chmod, autogen.sh, configure, and with [shell=True]
    on the lists for make and make install, changes back, removes the
    temporary directories and lists the files under /tmp/out. *)
Lemma linux_1_8_17_log (os : OS) (environ : gmap string string)
    (world : Ext os) (start : string) :
  is_win (platform os) = false ->
  environ !! "HDF5_DIR" = Some "/tmp/out" ->
  default DEFAULT_VERSION (environ !! "HDF5_VERSION") = "1.8.17" ->
  environ !! "HDF5_VSVERSION" = None ->
  environ !! "HDF5_MPI" <> Some "ON" ->
  let '(r, st) := run_script os environ world start in
  r = Returned tt ->
  ~ In (Stderr "using cached hdf5") (log st) ->
  exists (existed : bool) (status : Z) (tmp work out : string) (files : tree),
    let src := Path os (path_join os tmp ["hdf5-1.8.17"]) in
    let url :=
      "https://www.hdfgroup.org/ftp/HDF5/releases/hdf5-1.8/hdf5-1.8.17/src/hdf5-1.8.17.gzip" in
    cwd st = start /\
    is_error_status status = false /\
    log st =
    ([PathExists "/tmp/out" existed] ++
     (if existed then [] else [Makedirs "/tmp/out"]) ++
     [PathExists (path_join os "/tmp/out" ["lib"; "hdf5.dll"]) false;
      TempFileOpen;
      Stderr ("Downloading " +:+ url);
      HttpGet url status;
      CopyBody;
      Seek0;
      TempDirCreate tmp;
      ExtractGzipTar tmp;
      TempDirCreate work;
      Chdir src;
      Run (Invocation (Argv ["chmod"; "+x"; "autogen.sh"]) false src false) 0;
      Run (Invocation (Argv ["./autogen.sh"]) false src false) 0;
      Stderr "Configuring HDF5 version 1.8.17...";
      Stderr "./configure --prefix /tmp/out";
      Run (Invocation (Argv ["./configure"; "--prefix"; "/tmp/out"]) false src true) 0;
      Stdout out;
      Stderr "Building HDF5 version 1.8.17...";
      Stderr "make";
      Run (Invocation (Argv ["make"]) true src false) 0;
      Stdout "None";
      Stderr "make install";
      Run (Invocation (Argv ["make"; "install"]) true src false) 0;
      Stdout "None";
      Stderr "Installed HDF5 version 1.8.17 to /tmp/out";
      Chdir start;
      TempDirCleanup work;
      TempDirCleanup tmp;
      TempFileClose;
      Stderr "hdf5 files: ";
      Walk "/tmp/out" files] ++
     map Stdout (report_lines os files))%list.
Proof.
  intros Hwin Hdir Hversion Hvs Hmpi.
  unfold run_script, main.
  rewrite Hdir, Hversion, Hvs.
  rewrite bool_decide_false by assumption.
  unfold build_hdf5, get_autotools_cmds, get_unpacked_path,
    REL_PATH_TO_UNPACKED_DIR.
  rewrite Hwin.
  sym_exec; try (run_print_files; cbn).
  all: intros Hr Hcached; try discriminate Hr.
  all: try solve [exfalso; apply Hcached; repeat first [left; reflexivity | right]].
  - exists true. do 5 eexists. split; [reflexivity|]. split; [eassumption|].
    rewrite (download_url_1_8_17 _ Hwin). reflexivity.
  - exists false. do 5 eexists. split; [reflexivity|]. split; [eassumption|].
    rewrite (download_url_1_8_17 _ Hwin). reflexivity.
Qed.

Lemma invocations_app (l1 l2 : list event) :
  invocations (l1 ++ l2) = (invocations l1 ++ invocations l2)%list.
Proof. apply flat_map_app. Qed.

Lemma invocations_map_Stdout (lines : list string) :
  invocations (map Stdout lines) = [].
Proof. induction lines; [reflexivity | assumption]. Qed.

(** C2 (the code does otherwise): in the scenario of the claim, off the
    Windows family, with HDF5_DIR=/tmp/out, version 1.8.17, no generator
    token and MPI not switched on, every run that misses the cache and
    returns normally starts five processes, from the unpacked hdf5-1.8.17
    directory: chmod, autogen.sh, ./configure --prefix /tmp/out, and two
    shells.  The lists for make and make install are passed with
    [shell=True], so their words are appended to /bin/sh -c: both shells
    execute the command text make, the second with install as its $0.  No
    process of the run executes make install. *)
Theorem linux_1_8_17_never_runs_make_install (os : OS)
    (environ : gmap string string) (world : Ext os) (start : string)
    (r : result unit) (st : state os) :
  is_win (platform os) = false ->
  environ !! "HDF5_DIR" = Some "/tmp/out" ->
  default DEFAULT_VERSION (environ !! "HDF5_VERSION") = "1.8.17" ->
  environ !! "HDF5_VSVERSION" = None ->
  environ !! "HDF5_MPI" <> Some "ON" ->
  run_script os environ world start = (r, st) ->
  r = Returned tt ->
  ~ In (Stderr "using cached hdf5") (log st) ->
  map posix_argv (invocations (log st)) =
  [["chmod"; "+x"; "autogen.sh"];
   ["./autogen.sh"];
   ["./configure"; "--prefix"; "/tmp/out"];
   ["/bin/sh"; "-c"; "make"];
   ["/bin/sh"; "-c"; "make"; "install"]] /\
  map shell_command (invocations (log st)) =
  [None; None; None; Some "make"; Some "make"] /\
  (exists tmp,
     map dir (invocations (log st)) =
     repeat (Path os (path_join os tmp ["hdf5-1.8.17"])) 5) /\
  Forall (fun i => posix_argv i <> ["make"; "install"] /\
                   shell_command i <> Some "make install")
         (invocations (log st)).
Proof.
  intros Hwin Hdir Hversion Hvs Hmpi Hrun Hr Hcached.
  pose proof (linux_1_8_17_log os environ world start Hwin Hdir Hversion Hvs Hmpi) as H.
  rewrite Hrun in H.
  destruct (H Hr Hcached)
    as (existed & status & tmp & work & out & files & _ & _ & ->).
  rewrite !invocations_app, invocations_map_Stdout.
  destruct existed; cbn.
  all: split; [reflexivity|]; split; [reflexivity|];
    split; [exists tmp; reflexivity|];
    repeat constructor; discriminate.
Qed.

Lemma linux_1_8_17_never_runs_make_install_witness :
  let run := run_script linux environ_linux_1_8_17 0%nat "/home/ci" in
  map shell_command (invocations (log (snd run))) =
  [None; None; None; Some "make"; Some "make"].
Proof.
  intros run.
  apply (linux_1_8_17_never_runs_make_install linux environ_linux_1_8_17 0%nat
           "/home/ci" (fst run) (snd run)).
  - reflexivity.
  - reflexivity.
  - reflexivity.
  - reflexivity.
  - discriminate.
  - apply surjective_pairing.
  - vm_compute. reflexivity.
  - vm_compute. intros H.
    repeat (destruct H as [H|H]; [discriminate H|]). exact H.
Defined.

(** * Further properties *)

(** ** More on the string primitives *)

Lemma join_cons_char (sep : string) (c : ascii) (field : string)
    (fields : list string) :
  Py.join sep (String c field :: fields) = String c (Py.join sep (field :: fields)).
Proof. destruct fields; reflexivity. Qed.

(** X1: joining the fields of [s.split(sep)] with [sep] gives [s] back, and
    no field contains the separator. *)
Theorem split_join_roundtrip (sep : ascii) (s : string) :
  Py.join (String sep "") (Py.split sep s) = s /\
  Forall (fun field => ~ In sep (list_ascii_of_string field)) (Py.split sep s).
Proof.
  induction s as [|c s [IHjoin IHfields]].
  - split; [reflexivity|]. repeat constructor. intros [].
  - cbn [Py.split]. destruct (Ascii.eqb_spec c sep) as [->|Hc].
    + split.
      * destruct (Py.split sep s) as [|f fs] eqn:E;
          [now destruct (split_nonempty sep s)|].
        change (Py.join (String sep "") ("" :: f :: fs))
          with (String sep (Py.join (String sep "") (f :: fs))).
        now rewrite IHjoin.
      * constructor; [intros []|exact IHfields].
    + destruct (Py.split sep s) as [|f fs] eqn:E;
        [now destruct (split_nonempty sep s)|].
      split.
      * rewrite join_cons_char. now rewrite IHjoin.
      * inversion IHfields as [|? ? Hf Hfs]; subst.
        constructor; [|exact Hfs].
        cbn. intros [->|Hin]; [now apply Hc | now apply Hf].
Qed.

Lemma all_str_map_Some (words : list string) :
  Py.all_str (map Some words) = Some words.
Proof. induction words as [|w words IH]; cbn; [reflexivity | now rewrite IH]. Qed.

(** ** The command builders *)

(** X2: the autotools configure command can be printed and run exactly when
    an install path is given: with None for it, [' '.join] raises TypeError.
    The CMake configure command is a list of str in every case. *)
Theorem configure_command_joinable (os : OS) (version : string)
    (install_path cmake_generator : option string) (use_prefix with_mpi : bool)
    (extract : string) (st : state os) :
  (fst (join_words os (fst (get_autotools_cmds install_path with_mpi)) st) =
   Raised TypeError <-> install_path = None) /\
  (forall p, install_path = Some p ->
     join_words os (fst (get_autotools_cmds install_path with_mpi)) st =
     (Returned (["./configure"; "--prefix"; p] ++
                if with_mpi then ["--enable-parallel"] else [])%list, st)) /\
  exists words,
    join_words os
      (fst (get_cmake_cmds os version install_path cmake_generator use_prefix extract))
      st = (Returned words, st) /\
    length words =
    (8 + match cmake_generator with Some _ => 2 | None => 0 end +
     (if use_prefix then 1 else 0))%nat.
Proof.
  repeat split.
  - destruct install_path, with_mpi; cbn; congruence.
  - intros ->. now destruct with_mpi.
  - intros p ->. now destruct with_mpi.
  - unfold get_cmake_cmds, join_words. cbn [fst].
    rewrite all_str_map_Some. eexists. split; [reflexivity|].
    destruct cmake_generator, use_prefix; reflexivity.
Qed.

Lemma configure_command_joinable_witness :
  join_words linux (fst (get_autotools_cmds (Some "/tmp/out") true))
    (@State linux 0%nat "/home/ci" []) =
  (Returned ["./configure"; "--prefix"; "/tmp/out"; "--enable-parallel"],
   @State linux 0%nat "/home/ci" []).
Proof.
  apply (proj1 (proj2 (configure_command_joinable linux "1.8.17" (Some "/tmp/out")
                         None false true "/tmp/tmp0"
                         (@State linux 0%nat "/home/ci" [])))).
  reflexivity.
Defined.

(** X3: unless the install path is itself the text --enable-parallel, the
    autotools configure command contains --enable-parallel exactly when MPI
    is asked for; the build commands are make and make install either way. *)
Theorem enable_parallel_iff_mpi (install_path : option string) (with_mpi : bool) :
  install_path <> Some "--enable-parallel" ->
  (In (Some "--enable-parallel") (fst (get_autotools_cmds install_path with_mpi)) <->
   with_mpi = true) /\
  snd (get_autotools_cmds install_path with_mpi) = [["make"]; ["make"; "install"]].
Proof.
  intros Hp. split; [|reflexivity].
  destruct with_mpi; cbn; split.
  - reflexivity.
  - intros _. do 3 right. now left.
  - intros [H|[H|[H|[]]]]; try discriminate H. now elim Hp.
  - discriminate.
Qed.

Lemma enable_parallel_iff_mpi_witness :
  ~ In (Some "--enable-parallel") (fst (get_autotools_cmds (Some "/tmp/out") false)).
Proof.
  intros H.
  apply (proj1 (enable_parallel_iff_mpi (Some "/tmp/out") false
                  ltac:(discriminate))) in H.
  discriminate H.
Defined.

(** X4: if neither the generator nor the unpacked source path is itself the
    text of the flag, the CMake configure command contains the library prefix
    flag exactly when a prefix is asked for; a generator is passed as -G
    followed by its name, and the one build command never changes. *)
Theorem library_prefix_iff_use_prefix (os : OS) (version : string)
    (install_path cmake_generator : option string) (use_prefix : bool)
    (extract : string) :
  cmake_generator <> Some "-DHDF5_EXTERNAL_LIB_PREFIX=h5py_" ->
  get_unpacked_path os version extract <> "-DHDF5_EXTERNAL_LIB_PREFIX=h5py_" ->
  let cmds := get_cmake_cmds os version install_path cmake_generator use_prefix extract in
  (In (Some "-DHDF5_EXTERNAL_LIB_PREFIX=h5py_") (fst cmds) <-> use_prefix = true) /\
  (forall g, cmake_generator = Some g ->
     exists before after,
       fst cmds = (before ++ [Some "-G"; Some g] ++ after)%list /\
       length before = 8%nat) /\
  snd cmds = [["cmake"; "--build"; "."; "--target"; "install"; "--config"; "Release"]].
Proof.
  intros Hg Hsrc cmds. subst cmds. unfold get_cmake_cmds. cbn [fst snd].
  repeat split.
  - rewrite in_map_iff. intros (w & [= ->] & Hin). revert Hin.
    unfold CMAKE_CONFIGURE_CMD, CMAKE_HDF5_LIBRARY_PREFIX.
    destruct use_prefix; [reflexivity|].
    destruct install_path, cmake_generator; cbn;
      intros H; repeat (destruct H as [H|H]; try discriminate H);
      try contradiction; try (now elim Hsrc); now elim Hg; rewrite H.
  - intros ->. apply in_map. apply in_or_app. right.
    apply in_or_app. right. apply in_or_app. right. now left.
  - intros g ->. cbn.
    eexists (map Some (CMAKE_CONFIGURE_CMD ++ [_; _])), _.
    split; [cbn; reflexivity | reflexivity].
Qed.

Lemma library_prefix_iff_use_prefix_witness :
  In (Some "-DHDF5_EXTERNAL_LIB_PREFIX=h5py_")
    (fst (get_cmake_cmds windows "1.10.2" None
            (Some "Visual Studio 14 2015 Win64") true "/tmp/tmp0")).
Proof.
  apply (proj1 (library_prefix_iff_use_prefix windows "1.10.2" None
                  (Some "Visual Studio 14 2015 Win64") true "/tmp/tmp0"
                  ltac:(discriminate) ltac:(discriminate))).
  reflexivity.
Defined.

(** ** One URL per version *)

Lemma append_assoc (a b c : string) : (a +:+ b) +:+ c = a +:+ (b +:+ c).
Proof.
  induction a as [|x a IH]; [reflexivity|].
  change ((String x a +:+ b) +:+ c) with (String x ((a +:+ b) +:+ c)).
  now rewrite IH.
Qed.

Lemma append_eq_same_length (a b x y : string) :
  a +:+ x = b +:+ y -> String.length a = String.length b -> a = b.
Proof.
  revert b. induction a as [|c a IH]; intros [|d b] H Hlen; try discriminate Hlen.
  - reflexivity.
  - change (String c (a +:+ x) = String d (b +:+ y)) in H.
    injection H as -> H. injection Hlen as Hlen. f_equal. now apply IH.
Qed.

Lemma append_inj_l (a x y : string) : a +:+ x = a +:+ y -> x = y.
Proof.
  induction a as [|c a IH]; [trivial|].
  change (String c (a +:+ x) = String c (a +:+ y) -> x = y).
  intros [= H]. now apply IH.
Qed.

Lemma version_twice_inj (v1 v2 middle tail : string) :
  v1 +:+ middle +:+ v1 +:+ tail = v2 +:+ middle +:+ v2 +:+ tail -> v1 = v2.
Proof.
  intros H. apply (append_eq_same_length _ _ _ _ H).
  apply (f_equal String.length) in H. rewrite !append_length in H. lia.
Qed.

Lemma download_url_inj (platform v1 v2 : string) :
  download_url platform v1 = download_url platform v2 -> v1 = v2.
Proof.
  unfold download_url, HDF5_110_FILE, HDF5_18_FILE, HDF5_110_URL, HDF5_18_URL.
  destruct (decide _), (decide _), (is_win platform);
    rewrite !append_assoc; intros H;
    first
      [ apply append_inj_l in H; exact (version_twice_inj _ _ "/src/hdf5-" _ H)
      | exfalso; cbv [String.append] in H; discriminate H ].
Qed.

(** X5: on one platform two different versions are never fetched from the
    same URL, whichever series each belongs to. *)
Theorem download_url_injective (platform v1 v2 : string) :
  v1 <> v2 -> download_url platform v1 <> download_url platform v2.
Proof.
  intros Hv Hurl. apply Hv. exact (download_url_inj platform v1 v2 Hurl).
Qed.

Lemma download_url_injective_witness :
  download_url "linux" "1.8.17" <> download_url "linux" "1.10.2".
Proof.
  apply (download_url_injective "linux" "1.8.17" "1.10.2"). discriminate.
Defined.

(** ** The build step, outcome by outcome *)

Ltac same_name := rewrite ?String.eqb_refl.

(** Every outcome of [build_hdf5]: its temporary directories are removed
    innermost first whatever happens, it causes only build events, it returns
    only off the Windows family with an install path and then in the
    directory it started in, and it raises nothing but TypeError,
    CalledProcessError with a nonzero code and the error of a library call
    that failed. *)
Lemma build_hdf5_effects (os : OS) (version : string)
    (install_path cmake_generator : option string) (use_prefix with_mpi : bool)
    (st : state os) :
  exists (r : result unit) (world : Ext os) (dir : string) (new : list event),
    build_hdf5 os version install_path cmake_generator use_prefix with_mpi st =
    (r, State world dir (log st ++ new)%list) /\
    (forall open, scoped open new = Some open) /\
    Forall (fun e => build_event e = true) new /\
    match r with
    | Returned _ =>
        is_win (platform os) = false /\ install_path <> None /\ dir = cwd st
    | Raised e =>
        e = TypeError \/
        (exists rc, rc <> 0 /\ e = CalledProcessError rc) \/
        exists name, e = LibraryError name
    end.
Proof.
  from_state st.
  unfold build_hdf5. destruct (is_win (platform os)) eqn:Hwin.
  - sym_exec; flatten_log; do 4 eexists; (split; [reflexivity|]);
      (split; [intros open; cbn; same_name; reflexivity|]);
      (split; [repeat constructor|]);
      first [now left | right; right; eexists; reflexivity].
  - unfold get_autotools_cmds.
    destruct install_path as [p|], with_mpi; sym_exec; flatten_log;
      (do 4 eexists; split; [reflexivity|];
       split; [intros open; cbn; same_name; reflexivity|];
       split; [repeat constructor|];
       first [ now left
             | right; left; eexists; split; [eassumption|reflexivity]
             | right; right; eexists; reflexivity
             | repeat split; congruence ]).
Qed.

(** X6: every outcome of [build_hdf5].  Its temporary directories are removed
    innermost first whatever happens and it makes no request.  It returns
    only off the Windows family and with an install path, and then in the
    directory it started in.  It never raises the RuntimeError for an unknown
    build system and never exits the process itself. *)
Theorem build_hdf5_outcome_summary (os : OS) (version : string)
    (install_path cmake_generator : option string) (use_prefix with_mpi : bool)
    (st : state os) :
  exists (r : result unit) (world : Ext os) (dir : string) (new : list event),
    build_hdf5 os version install_path cmake_generator use_prefix with_mpi st =
    (r, State world dir (log st ++ new)%list) /\
    scoped [] new = Some [] /\
    Forall (fun e => is_get e = false) new /\
    (forall msg, r <> Raised (RuntimeError msg)) /\
    (forall code, r <> Raised (SystemExit code)) /\
    (r = Returned tt ->
     is_win (platform os) = false /\ install_path <> None /\ dir = cwd st).
Proof.
  destruct (build_hdf5_effects os version install_path cmake_generator
              use_prefix with_mpi st)
    as (r & world & dir & new & Hrun & Hscoped & Hevents & Hr).
  exists r, world, dir, new. split; [exact Hrun|]. split; [apply Hscoped|].
  split.
  - revert Hevents. apply List.Forall_impl. now intros [].
  - destruct r as [[]|e].
    + repeat split; try discriminate; apply Hr.
    + destruct Hr as [->|[(rc & _ & ->)|(name & ->)]]; repeat split; discriminate.
Qed.

(** ** The listing *)

Lemma report_lines_length (os : OS) (found : tree) :
  length (report_lines os found) =
  list_sum (map (fun '(_, _, filenames) => length filenames) found).
Proof.
  unfold report_lines.
  induction found as [|[[dirpath dirnames] filenames] found IH]; [reflexivity|].
  cbn. rewrite length_app, length_map, IH. reflexivity.
Qed.

(** X7: [print_files] never raises, leaves the working directory alone, and
    prints exactly one line per file that [os.walk] yielded (directory names
    are not printed), after whatever was in the log; nothing for an empty
    tree. *)
Theorem print_files_one_line_per_file (os : OS) (found : tree) (st : state os) :
  exists (world : Ext os) (lines : list string),
    print_files os found st =
    (Returned tt, State world (cwd st) (log st ++ map Stdout lines)%list) /\
    length lines = list_sum (map (fun '(_, _, filenames) => length filenames) found) /\
    Forall (fun line => Py.startswith line " * " = true) lines /\
    (found = [] -> lines = []).
Proof.
  destruct (print_files_spec os found st) as [world H].
  exists world, (report_lines os found). split; [exact H|].
  split; [apply report_lines_length|]. split.
  - unfold report_lines. apply List.Forall_forall. intros line Hin.
    apply in_flat_map in Hin as ([[dirpath dirnames] filenames] & _ & Hin).
    apply in_map_iff in Hin as (file & <- & _). reflexivity.
  - now intros ->.
Qed.

(** ** The build step without an install path *)

(** X8: with None for the install path [build_hdf5] never returns, on any
    platform: it raises TypeError, or CalledProcessError when chmod or
    autogen.sh exits with a nonzero status first, or the error of a library
    call that failed (the extraction, the change of directory, the start of
    chmod or autogen.sh).  The configure command, the one command whose
    output is captured, is never started, and the temporary directories are
    still removed innermost first. *)
Theorem build_hdf5_without_install_path (os : OS) (version : string)
    (cmake_generator : option string) (use_prefix with_mpi : bool)
    (st : state os) :
  exists (e : exn) (world : Ext os) (dir : string) (new : list event),
    build_hdf5 os version None cmake_generator use_prefix with_mpi st =
    (Raised e, State world dir (log st ++ new)%list) /\
    (e = TypeError \/
     (exists rc, rc <> 0 /\ e = CalledProcessError rc) \/
     exists name, e = LibraryError name) /\
    Forall (fun ev =>
              match ev with
              | Run i _ | NotStarted i _ => piped i = false
              | _ => True
              end) new /\
    scoped [] new = Some [].
Proof.
  from_state st.
  unfold build_hdf5. destruct (is_win (platform os)) eqn:Hwin.
  - sym_exec; flatten_log; do 4 eexists; (split; [reflexivity|]);
      (split; [first [now left | right; right; eexists; reflexivity]|]);
      (split; [repeat constructor|]);
      cbn; same_name; reflexivity.
  - unfold get_autotools_cmds.
    destruct with_mpi; sym_exec; flatten_log;
      (do 4 eexists; split; [reflexivity|];
       split; [first [ now left
                     | right; left; eexists; split; [eassumption|reflexivity]
                     | right; right; eexists; reflexivity ]|];
       split; [repeat constructor | cbn; same_name; reflexivity]).
Qed.

(** ** Runs, outcome by outcome *)

Ltac run_build_effects :=
  match goal with
  | |- context [build_hdf5 ?os ?v ?ip ?g ?u ?m ?st] =>
      let r := fresh "built" in
      let w := fresh "world" in
      let d := fresh "dir" in
      let new := fresh "new" in
      let Hs := fresh "Hscoped" in
      let He := fresh "Hevents" in
      let Hr := fresh "Hresult" in
      destruct (build_hdf5_effects os v ip g u m st)
        as (r & w & d & new & -> & Hs & He & Hr);
      destruct r as [[]|?]
  end.

Ltac run_main_effects :=
  sym_exec;
  try (run_build_effects; sym_exec);
  try (run_print_files; cbn).

Lemma scoped_app (open : list (option string)) (l1 l2 : list event) :
  scoped open (l1 ++ l2) =
  match scoped open l1 with
  | Some open' => scoped open' l2
  | None => None
  end.
Proof.
  revert open. induction l1 as [|e l1 IH]; intros open; [reflexivity|].
  destruct e; cbn; try apply IH.
  - destruct open as [|[d'|] open']; try reflexivity. apply IH.
  - destruct open as [|[d'|] open']; try reflexivity.
    destruct (String.eqb path d'); [apply IH | reflexivity].
Qed.

Lemma scoped_map_Stdout (open : list (option string)) (lines : list string) :
  scoped open (map Stdout lines) = Some open.
Proof. induction lines; [reflexivity | assumption]. Qed.

(** X9: in every run, however it ends, the temporary file and the temporary
    directories are closed and removed innermost first, and none is left
    open at the end. *)
Theorem run_resources_released (os : OS) (environ : gmap string string)
    (world : Ext os) (start : string) :
  let '(r, st) := run_script os environ world start in
  scoped [] (log st) = Some [].
Proof.
  unfold run_script, main.
  case_environ environ.
  all: run_main_effects.
  all: rewrite <- ?app_assoc; rewrite ?scoped_app, ?Hscoped; cbn;
    rewrite ?scoped_map_Stdout; reflexivity.
Qed.

(** How a run can end.  A run that returns had an install path, ends in the
    directory it started in, and either hit the cache or ran off the Windows
    family.  The only exceptions are TypeError, the KeyError of an unknown
    generator token, CalledProcessError with a nonzero code, SystemExit 1,
    and the error of a library call that failed. *)
Lemma run_script_results (os : OS) (environ : gmap string string)
    (world : Ext os) (start : string) :
  let '(r, st) := run_script os environ world start in
  match r with
  | Returned _ =>
      cwd st = start /\
      environ !! "HDF5_DIR" <> None /\
      (cache_hit (log st) \/ is_win (platform os) = false)
  | Raised e =>
      e = TypeError \/
      (exists v, e = KeyError v /\ environ !! "HDF5_VSVERSION" = Some v /\
                 VSVERSION_TO_GENERATOR !! v = None) \/
      (exists rc, rc <> 0 /\ e = CalledProcessError rc) \/
      e = SystemExit 1 \/
      exists name, e = LibraryError name
  end.
Proof.
  unfold run_script, main.
  case_environ environ.
  all: run_main_effects.
  all: first
    [ solve [left; reflexivity]
    | solve [right; left; eexists; repeat split; eauto]
    | solve [right; right; right; left; reflexivity]
    | solve [right; right; right; right; eexists; reflexivity]
    | solve [destruct Hresult as [->|[(? & ? & ->)|(? & ->)]];
             [ left; reflexivity | right; right; left; eauto
             | right; right; right; right; eexists; reflexivity ]]
    | solve [split; [reflexivity|]; split; [discriminate|]; left;
             unfold cache_hit; repeat first [left; reflexivity | right]]
    | solve [destruct Hresult as (Hwin & _ & ->);
             split; [reflexivity|]; split; [discriminate|]; right; exact Hwin] ].
Qed.

(** ** What every run does *)

(** X10: the exit status of a run is 0 or 1, and it is 0 exactly
    when [main] returns; the RuntimeError for an unknown build system is
    never raised. *)
Theorem exit_status_zero_or_one (os : OS) (environ : gmap string string)
    (world : Ext os) (start : string) :
  let '(r, st) := run_script os environ world start in
  (exit_status r = 0 \/ exit_status r = 1) /\
  (exit_status r = 0 <-> r = Returned tt) /\
  (forall msg, r <> Raised (RuntimeError msg)).
Proof.
  pose proof (run_script_results os environ world start) as H.
  destruct (run_script os environ world start) as [[[]|e] st].
  - repeat split; [now left | discriminate].
  - destruct H as [H|[H|[H|[H|H]]]];
      [ | destruct H as (v & H & _) | destruct H as (rc & _ & H) |
        | destruct H as (name & H) ];
      subst e; cbn; repeat split; try (now right); discriminate.
Qed.

(** X11: on the Windows family a run returns normally only when it hit the
    cache: every attempt to build ends in an exception. *)
Theorem windows_returns_only_on_cache_hit (os : OS)
    (environ : gmap string string) (world : Ext os) (start : string)
    (st : state os) :
  is_win (platform os) = true ->
  run_script os environ world start = (Returned tt, st) ->
  cache_hit (log st).
Proof.
  intros Hwin Hrun.
  pose proof (run_script_results os environ world start) as H.
  rewrite Hrun in H. destruct H as (_ & _ & [H|H]); [exact H|congruence].
Qed.

Lemma windows_returns_only_on_cache_hit_witness :
  let os := with_artifact windows in
  cache_hit (log (snd (run_script os environ_windows_cached 0%nat "C:\ci"))).
Proof.
  intros os.
  apply (windows_returns_only_on_cache_hit os environ_windows_cached 0%nat "C:\ci").
  - reflexivity.
  - vm_compute. reflexivity.
Defined.

(** X12: a run that returns normally ends in the directory it started in,
    and it had an install path. *)
Theorem returning_run_keeps_cwd (os : OS) (environ : gmap string string)
    (world : Ext os) (start : string) (st : state os) :
  run_script os environ world start = (Returned tt, st) ->
  cwd st = start /\ environ !! "HDF5_DIR" <> None.
Proof.
  intros Hrun.
  pose proof (run_script_results os environ world start) as H.
  rewrite Hrun in H. destruct H as (? & ? & _). now split.
Qed.

Lemma returning_run_keeps_cwd_witness :
  cwd (snd (run_script linux environ_linux_1_8_17 0%nat "/home/ci")) = "/home/ci".
Proof.
  apply (returning_run_keeps_cwd linux environ_linux_1_8_17 0%nat "/home/ci").
  vm_compute. reflexivity.
Defined.

Lemma Forall_map_Stdout (P : event -> Prop) (lines : list string) :
  (forall line, P (Stdout line)) -> Forall P (map Stdout lines).
Proof. intros H. induction lines; constructor; auto. Qed.

Lemma build_events (P : event -> Prop) (l : list event) :
  (forall e, build_event e = true -> P e) ->
  Forall (fun e => build_event e = true) l -> Forall P l.
Proof. intros H. apply List.Forall_impl. exact H. Qed.

(** Proving a property of every event of a log that is made of known events,
    the events of a build step and the lines of the listing. *)
Ltac each_event known built :=
  rewrite <- ?app_assoc;
  repeat first
    [ apply List.Forall_nil
    | apply List.Forall_cons; [solve [known]|]
    | apply List.Forall_app; split
    | match goal with
      | H : Forall (fun e => build_event e = true) ?l |- Forall _ ?l =>
          revert H; apply build_events; intros [] ?; solve [built]
      end
    | apply Forall_map_Stdout; intros; solve [known] ].

Ltac start_main environ :=
  unfold run_script, main;
  case_environ environ;
  run_main_effects.

Lemma no_hit_line (l : list event) :
  Forall (fun e => hit_line e = false) l -> ~ cache_hit l.
Proof.
  intros H Hin. rewrite List.Forall_forall in H. now specialize (H _ Hin).
Qed.

Lemma run_script_cache_hit (os : OS) (environ : gmap string string)
    (world : Ext os) (start : string) :
  let '(r, st) := run_script os environ world start in
  cache_hit (log st) ->
  r = Returned tt /\
  Forall (fun e => is_get e = false /\ build_step e = false) (log st).
Proof.
  start_main environ.
  all: first
    [ solve [intros _; split; [reflexivity|];
             each_event ltac:(split; reflexivity) ltac:(idtac)]
    | solve [intros H; exfalso; revert H; apply no_hit_line;
             each_event ltac:(reflexivity)
               ltac:(cbn in *;
                     first [reflexivity | discriminate
                           | match goal with
                             | H : _ && _ = true |- _ =>
                                 apply andb_true_iff in H; destruct H as [H _];
                                 now apply negb_true_iff
                             end]) ] ].
Qed.

(** X13: when a run finds the artifact and prints the line of a cache hit, it
    returns normally, and no event of it is a request, an extraction or a
    step of the build. *)
Theorem cache_hit_skips_download_and_build (os : OS)
    (environ : gmap string string) (world : Ext os) (start : string)
    (r : result unit) (st : state os) :
  run_script os environ world start = (r, st) ->
  cache_hit (log st) ->
  r = Returned tt /\ exit_status r = 0 /\
  Forall (fun e => is_get e = false /\ build_step e = false) (log st).
Proof.
  intros Hrun Hhit.
  pose proof (run_script_cache_hit os environ world start) as H.
  rewrite Hrun in H. destruct (H Hhit) as [-> Hlog]. now repeat split.
Qed.

Lemma cache_hit_skips_download_and_build_witness :
  let run := run_script (with_artifact linux) environ_linux_1_8_17 0%nat "/home/ci" in
  fst run = Returned tt /\ exit_status (fst run) = 0 /\
  Forall (fun e => is_get e = false /\ build_step e = false) (log (snd run)).
Proof.
  intros run.
  apply (cache_hit_skips_download_and_build (with_artifact linux)
           environ_linux_1_8_17 0%nat "/home/ci" (fst run) (snd run)).
  - apply surjective_pairing.
  - vm_compute. do 2 right. left. reflexivity.
Defined.

(** X14: a generator token that is not in the table ends the run with the
    KeyError of the lookup, whether or not an install path is set, unless
    the install directory is missing and cannot be created: then the run has
    ended before the lookup, with the error of [makedirs].  By then the
    install directory has been probed and, if missing, [makedirs] called on
    it; nothing else has happened. *)
Theorem unknown_generator_KeyError (os : OS) (environ : gmap string string)
    (world : Ext os) (start v : string) :
  environ !! "HDF5_VSVERSION" = Some v ->
  VSVERSION_TO_GENERATOR !! v = None ->
  let '(r, st) := run_script os environ world start in
  exit_status r = 1 /\
  cwd st = start /\
  match environ !! "HDF5_DIR" with
  | None => r = Raised (KeyError v) /\ log st = []
  | Some p =>
      if path_exists os p world then
        r = Raised (KeyError v) /\ log st = [PathExists p true]
      else
        r = Raised match makedirs_error os p world with
                   | None => KeyError v
                   | Some name => LibraryError name
                   end /\
        log st = [PathExists p false; Makedirs p]
  end.
Proof.
  intros Hv Hgen. unfold run_script, main. rewrite Hv, Hgen.
  destruct (environ !! "HDF5_DIR") as [p|]; unfold_script; cbn.
  - destruct (path_exists os p world); cbn.
    + repeat split.
    + destruct (makedirs_error os p world); cbn; repeat split.
  - repeat split.
Qed.

Lemma unknown_generator_KeyError_witness :
  let environ : gmap string string :=
    <["HDF5_DIR" := "/tmp/out"]> (<["HDF5_VSVERSION" := "15"]> ∅) in
  let '(r, st) := run_script linux environ 0%nat "/home/ci" in
  exit_status r = 1 /\
  cwd st = "/home/ci" /\
  r = Raised (KeyError "15") /\
  log st = [PathExists "/tmp/out" false; Makedirs "/tmp/out"].
Proof.
  intros environ.
  exact (unknown_generator_KeyError linux environ 0%nat "/home/ci" "15"
           eq_refl eq_refl).
Defined.

(** An install directory that cannot be created: [os.makedirs] of the empty
    path raises, and the lookup of the token is not reached. *)
Lemma unknown_generator_after_makedirs :
  let environ : gmap string string :=
    <["HDF5_DIR" := ""]> (<["HDF5_VSVERSION" := "15"]> ∅) in
  run_script linux environ 0%nat "/home/ci" =
  (Raised (LibraryError "FileNotFoundError"),
   @State linux 0%nat "/home/ci" [PathExists "" false; Makedirs ""]).
Proof. reflexivity. Qed.

Lemma generator_9_64 :
  VSVERSION_TO_GENERATOR !! "9-64" = Some "Visual Studio 9 2008 Win64".
Proof. reflexivity. Qed.

(** X15: [subprocess.run] is called on the Visual Studio 2008 setup script
    only when the token is 9-64, and then always, on any platform and from
    the directory the run started in, unless the run has already ended
    because the install directory could not be created.  The call runs the
    script, or fails to start it and ends the run with its error.  Every
    other call of [subprocess.run] passes its command as a list. *)
Theorem setup_script_iff_9_64 (os : OS) (environ : gmap string string)
    (world : Ext os) (start : string) :
  let '(r, st) := run_script os environ world start in
  let setup := setup_script start in
  (environ !! "HDF5_VSVERSION" = Some "9-64" ->
   (exists rc, In (Run setup rc) (log st)) \/
   (exists name,
      In (NotStarted setup name) (log st) /\ r = Raised (LibraryError name)) \/
   (exists p name,
      environ !! "HDF5_DIR" = Some p /\
      log st = [PathExists p false; Makedirs p] /\
      r = Raised (LibraryError name))) /\
  Forall (fun e =>
            match e with
            | Run i _ | NotStarted i _ =>
                checked i = true \/
                (i = setup /\ environ !! "HDF5_VSVERSION" = Some "9-64")
            | _ => True
            end) (log st).
Proof.
  start_main environ.
  all: cbv zeta; unfold setup_script.
  all: split;
    [ intros Hv;
      first
        [ solve [left; eexists; repeat first [left; reflexivity | right]]
        | solve [right; left; eexists; split;
                 [repeat first [left; reflexivity | right] | reflexivity]]
        | solve [right; right; do 2 eexists; repeat split]
        | solve [congruence]
        | solve [injection Hv as ->; rewrite generator_9_64 in *; discriminate] ]
    | each_event
        ltac:(first [exact I | now left
                    | right; split; [reflexivity | congruence]])
        ltac:(first [exact I | now left]) ].
Qed.

(** X16: there is at most one request per run, successful or not, and it is
    for the URL of the version asked for. *)
Theorem at_most_one_request (os : OS) (environ : gmap string string)
    (world : Ext os) (start : string) :
  let '(r, st) := run_script os environ world start in
  (length (List.filter is_get (log st)) <= 1)%nat /\
  Forall (fun e =>
            match e with
            | HttpGet url _ =>
                url = download_url (platform os)
                        (default DEFAULT_VERSION (environ !! "HDF5_VERSION"))
            | _ => True
            end) (log st).
Proof.
  start_main environ.
  all: split;
    [ rewrite <- ?app_assoc;
      repeat (rewrite ?List.filter_app; cbn [List.filter is_get app length]);
      repeat match goal with
             | H : Forall (fun e => build_event e = true) ?l |- _ =>
                 assert (List.filter is_get l = []) as ->
                   by (clear -H; induction H as [|[] ? ? ? IH];
                       cbn in *; congruence)
             end;
      repeat match goal with
             | |- context [List.filter is_get (map Stdout ?l)] =>
                 assert (List.filter is_get (map Stdout l) = []) as ->
                   by (clear; induction l; auto)
             end;
      cbn; lia
    | each_event ltac:(first [exact I | reflexivity])
                 ltac:(first [exact I | discriminate]) ].
Qed.

Lemma ends_with_here (l : list event) : exists pre, l = (pre ++ l)%list.
Proof. now exists []. Qed.

Lemma ends_with_cons (e : event) (l suffix : list event) :
  (exists pre, l = (pre ++ suffix)%list) ->
  exists pre, e :: l = (pre ++ suffix)%list.
Proof. intros [pre ->]. now exists (e :: pre). Qed.

Lemma ends_with_app (l0 l suffix : list event) :
  (exists pre, l = (pre ++ suffix)%list) ->
  exists pre, (l0 ++ l)%list = (pre ++ suffix)%list.
Proof. intros [pre ->]. exists (l0 ++ pre)%list. now rewrite app_assoc. Qed.

Lemma ends_with_and (A : Prop) (l suffix : list event) :
  A -> (exists pre, l = (pre ++ suffix)%list) ->
  exists pre, A /\ l = (pre ++ suffix)%list.
Proof. intros HA [pre ->]. now exists pre. Qed.

Lemma run_script_report (os : OS) (environ : gmap string string)
    (world : Ext os) (start : string) :
  let '(r, st) := run_script os environ world start in
  r = Returned tt ->
  exists (p : string) (files : tree) (pre : list event),
    environ !! "HDF5_DIR" = Some p /\
    log st =
    (pre ++ Stderr "hdf5 files: " :: Walk p files ::
            map Stdout (report_lines os files))%list.
Proof.
  start_main environ.
  all: intros Hr; try discriminate Hr.
  all: rewrite <- ?app_assoc; cbn [app].
  all: do 2 eexists; apply ends_with_and; [reflexivity|].
  all: repeat first
         [ apply ends_with_here | apply ends_with_cons | apply ends_with_app ].
Qed.

(** X17: every run that returns normally ends by listing the install path:
    the last events are the heading, the walk of the install path and one
    printed line per file found. *)
Theorem returning_run_lists_files (os : OS) (environ : gmap string string)
    (world : Ext os) (start : string) (st : state os) :
  run_script os environ world start = (Returned tt, st) ->
  exists (p : string) (files : tree) (pre : list event),
    environ !! "HDF5_DIR" = Some p /\
    log st =
    (pre ++ Stderr "hdf5 files: " :: Walk p files ::
            map Stdout (report_lines os files))%list.
Proof.
  intros Hrun.
  pose proof (run_script_report os environ world start) as H.
  rewrite Hrun in H. now apply H.
Qed.

Lemma returning_run_lists_files_witness :
  exists (p : string) (files : tree) (pre : list event),
    environ_linux_1_8_17 !! "HDF5_DIR" = Some p /\
    log (snd (run_script linux environ_linux_1_8_17 0%nat "/home/ci")) =
    (pre ++ Stderr "hdf5 files: " :: Walk p files ::
            map Stdout (report_lines linux files))%list.
Proof.
  apply (returning_run_lists_files linux environ_linux_1_8_17 0%nat "/home/ci").
  vm_compute. reflexivity.
Defined.


(** X19: the copy of the dlls never happens.  In no run, on any platform and
    however it ends, is the line announcing it printed, a file looked up by
    pattern, or a file copied. *)
Theorem dll_copy_never_runs (os : OS) (environ : gmap string string)
    (world : Ext os) (start : string) :
  let '(r, st) := run_script os environ world start in
  Forall (fun e =>
            match e with
            | Glob _ _ | Copy _ _ => False
            | Stderr line => line <> "Copying HDF5 dlls"
            | _ => True
            end) (log st).
Proof.
  start_main environ.
  all: each_event
         ltac:(first [exact I | discriminate])
         ltac:(first [ exact I | discriminate
                     | match goal with
                       | H : build_event (Stderr _) = true |- _ =>
                           cbn in H; apply andb_true_iff in H;
                           destruct H as [_ H]; apply negb_true_iff in H;
                           now apply String.eqb_neq
                       end ]).
Qed.

(** X20: the archive format is chosen by the platform alone.  [build_hdf5]
    begins by creating a temporary directory and extracting into it, as a
    zip archive on the Windows family and as a gzipped tar archive elsewhere,
    whatever the version; nothing is extracted after that. *)
Theorem extraction_follows_platform (os : OS) (version : string)
    (install_path cmake_generator : option string) (use_prefix with_mpi : bool)
    (st : state os) :
  exists (r : result unit) (world : Ext os) (dir d : string) (rest : list event),
    build_hdf5 os version install_path cmake_generator use_prefix with_mpi st =
    (r, State world dir
          (log st ++
           TempDirCreate d ::
           (if is_win (platform os) then ExtractZip d else ExtractGzipTar d) ::
           rest)%list) /\
    d = temp_dir os (ext st) /\
    Forall (fun e =>
              match e with
              | ExtractZip _ | ExtractGzipTar _ => False
              | _ => True
              end) rest.
Proof.
  from_state st.
  unfold build_hdf5. destruct (is_win (platform os)) eqn:Hwin.
  - sym_exec; flatten_log; do 5 eexists; (split; [reflexivity|]);
      (split; [reflexivity | repeat constructor]).
  - unfold get_autotools_cmds.
    destruct install_path as [p|], with_mpi; sym_exec; flatten_log;
      (do 5 eexists; split; [reflexivity|];
       split; [reflexivity | repeat constructor]).
Qed.
